(** * simple-fsm: the transition engine and its in-memory store

    A shallow embedding of [fsm.go] (workflow definition, validation,
    lookup, [Start], [Trigger] and the query operations) and of the
    reference [MemoryStorage], followed by the properties of the engine.

    Conventions of the embedding.
    - Go strings are [string]; [==] on strings is [String.eqb].
    - A Go function returning [(T, error)] returns [result T]; one that
      returns only [error] returns [option error], [None] being [nil].
    - [time.Time] is an integer instant ([Z]); the reading of
      [time.Now().UTC()] is an explicit argument [now] of the two
      operations that take it.
    - The [context.Context] argument is dropped: neither the engine nor the
      in-memory store looks at it.
    - The engine holds a pointer to its store and mutates the store through
      it; here an updating operation returns the engine with its store
      replaced.  The mutex of the in-memory store guards single calls and is
      not modelled: operations are run one after the other. *)

From Stdlib Require Import String List ZArith Bool Arith Lia Sorted.
Import ListNotations.
Open Scope string_scope.
Open Scope list_scope.

Set Implicit Arguments.

(** ** Errors *)

(** [errors.New msg] and [fmt.Errorf format args...] with exactly one [%w]
    operand.  [args] are the remaining operands, in order.  Go tells
    sentinel errors apart by identity; every [errors.New] of the package
    has its own message, so the message identifies the sentinel. *)
Inductive error : Type :=
| errorString (msg : string)
| wrapError (format : string) (args : list string) (err : error).

Definition ErrInvalidState : error := errorString "invalid state".
Definition ErrInvalidEvent : error := errorString "invalid event".
Definition ErrInvalidTransition : error := errorString "invalid transition".
Definition ErrEntityNotFound : error := errorString "entity not found".

Definition error_eq_dec (a b : error) : {a = b} + {a <> b}.
Proof.
  decide equality; try apply string_dec.
  apply (list_eq_dec string_dec).
Defined.

(** [errors.Is]: the error itself or one it wraps is the target. *)
Fixpoint errors_Is (err target : error) : bool :=
  if error_eq_dec err target then true
  else match err with
       | errorString _ => false
       | wrapError _ _ inner => errors_Is inner target
       end.

Inductive result (A : Type) : Type :=
| Ok (a : A)
| Err (e : error).

Arguments Ok {A} a.
Arguments Err {A} e.

(** ** Data model *)

Record State : Type := mkState { State_Name : string }.

Record Event : Type := mkEvent { Event_Name : string }.

Record Transition : Type := mkTransition {
  From : State;
  To : State;
  Transition_Event : Event;
  CreatedAt : Z;
  CreatedBy : string
}.

Record Entity : Type := mkEntity { Entity_Type : string; Entity_ID : string }.

Record EntityTransition : Type := mkEntityTransition {
  ET_Entity : Entity;
  ET_Transition : Transition
}.

(** The [Storage] interface consumed by the engine. *)
Class Storage (S : Type) : Type := {
  SaveTransition : EntityTransition -> S -> option error * S;
  GetCurrentState : Entity -> S -> result State;
  GetTransitions : Entity -> S -> result (list EntityTransition)
}.

(** ** The reference store, [MemoryStorage] *)

Module MemoryStorage.

Record t : Type := mk { transitions : list EntityTransition }.

Definition NewMemoryStorage : t := {| transitions := [] |}.

(** The test of both scans:
    [t.Entity.Type == entity.Type && t.Entity.ID == entity.ID]. *)
Definition sameEntity (entity : Entity) (et : EntityTransition) : bool :=
  (Entity_Type (ET_Entity et) =? Entity_Type entity) &&
  (Entity_ID (ET_Entity et) =? Entity_ID entity).

Definition SaveTransition (et : EntityTransition) (m : t) : option error * t :=
  (None, {| transitions := transitions m ++ [et] |}).

(** The loop [for i := len - 1; i >= 0; i--]: [n] is [i + 1], so the call
    at [n] looks at the indices [n - 1] down to [0]. *)
Fixpoint scanBackward (ts : list EntityTransition) (entity : Entity) (n : nat)
  : result State :=
  match n with
  | O => Err ErrEntityNotFound
  | S i =>
      match nth_error ts i with
      | Some et =>
          if sameEntity entity et then Ok (To (ET_Transition et))
          else scanBackward ts entity i
      | None => scanBackward ts entity i
      end
  end.

Definition GetCurrentState (entity : Entity) (m : t) : result State :=
  scanBackward (transitions m) entity (length (transitions m)).

Definition GetTransitions (entity : Entity) (m : t)
  : result (list EntityTransition) :=
  Ok (filter (sameEntity entity) (transitions m)).

End MemoryStorage.

#[export] Instance MemoryStorage_Storage : Storage MemoryStorage.t := {
  SaveTransition := MemoryStorage.SaveTransition;
  GetCurrentState := MemoryStorage.GetCurrentState;
  GetTransitions := MemoryStorage.GetTransitions
}.

(** ** The engine *)

Record FSM (S : Type) : Type := mkFSM {
  states : list State;
  events : list Event;
  transitions : list Transition;
  storage : S
}.

Fixpoint validateState (state : State) (validStates : list State) : option error :=
  match validStates with
  | [] => Some (wrapError "%w: state %q is not valid" [State_Name state] ErrInvalidState)
  | s :: rest =>
      if State_Name s =? State_Name state then None
      else validateState state rest
  end.

Fixpoint validateEvent (event : Event) (validEvents : list Event) : option error :=
  match validEvents with
  | [] => Some (wrapError "%w: event %q is not valid" [Event_Name event] ErrInvalidEvent)
  | e :: rest =>
      if Event_Name e =? Event_Name event then None
      else validateEvent event rest
  end.

(** The validation loop of [New] over the declared transitions. *)
Fixpoint validateTransitions (ts : list Transition) (sts : list State)
  (evs : list Event) : option error :=
  match ts with
  | [] => None
  | t :: rest =>
      match validateState (From t) sts with
      | Some err => Some (wrapError "invalid from state in transition: %w" [] err)
      | None =>
          match validateState (To t) sts with
          | Some err => Some (wrapError "invalid to state in transition: %w" [] err)
          | None =>
              match validateEvent (Transition_Event t) evs with
              | Some err => Some (wrapError "invalid event in transition: %w" [] err)
              | None => validateTransitions rest sts evs
              end
          end
      end
  end.

Section Engine.

Context {S : Type} `{Storage S}.

(** [storage] is an interface value; [None] is the [nil] interface. *)
Definition New (sts : list State) (evs : list Event) (ts : list Transition)
  (st : option S) : result (FSM S) :=
  if Nat.eqb (length sts) 0 then Err (errorString "no states defined")
  else if Nat.eqb (length evs) 0 then Err (errorString "no events defined")
  else if Nat.eqb (length ts) 0 then Err (errorString "no transitions defined")
  else match st with
       | None => Err (errorString "storage cannot be nil")
       | Some s =>
           match validateTransitions ts sts evs with
           | Some err => Err err
           | None =>
               Ok {| states := sts; events := evs; transitions := ts; storage := s |}
           end
       end.

(** The engine after its store has been mutated into [s]. *)
Definition withStorage (f : FSM S) (s : S) : FSM S :=
  {| states := states f; events := events f;
     transitions := transitions f; storage := s |}.

Fixpoint findNextState_loop (ts : list Transition) (from : State) (event : Event)
  : result State :=
  match ts with
  | [] =>
      Err (wrapError "%w: no transition from %q with event %q"
             [State_Name from; Event_Name event] ErrInvalidTransition)
  | t :: rest =>
      if (State_Name (From t) =? State_Name from) &&
         (Event_Name (Transition_Event t) =? Event_Name event)
      then Ok (To t)
      else findNextState_loop rest from event
  end.

Definition findNextState (f : FSM S) (from : State) (event : Event) : result State :=
  findNextState_loop (transitions f) from event.

Definition GetNextState (f : FSM S) (currentState : State) (event : Event)
  : result State :=
  findNextState f currentState event.

Definition Start (f : FSM S) (entity : Entity) (initialState : State)
  (createdBy : string) (now : Z) : option error * FSM S :=
  match validateState initialState (states f) with
  | Some err => (Some err, f)
  | None =>
      let et := {| ET_Entity := entity;
                   ET_Transition := {| From := {| State_Name := "" |};
                                       To := initialState;
                                       Transition_Event := {| Event_Name := "start" |};
                                       CreatedAt := now;
                                       CreatedBy := createdBy |} |} in
      let (err, s) := SaveTransition et (storage f) in
      (err, withStorage f s)
  end.

Definition Trigger (f : FSM S) (entity : Entity) (event : Event)
  (createdBy : string) (now : Z) : option error * FSM S :=
  match GetCurrentState entity (storage f) with
  | Err err => (Some (wrapError "failed to get current state: %w" [] err), f)
  | Ok currentState =>
      match validateEvent event (events f) with
      | Some err => (Some err, f)
      | None =>
          match findNextState f currentState event with
          | Err err => (Some err, f)
          | Ok nextState =>
              let et := {| ET_Entity := entity;
                           ET_Transition := {| From := currentState;
                                               To := nextState;
                                               Transition_Event := event;
                                               CreatedAt := now;
                                               CreatedBy := createdBy |} |} in
              let (err, s) := SaveTransition et (storage f) in
              (err, withStorage f s)
          end
      end
  end.

Definition GetState (f : FSM S) (entity : Entity) : result State :=
  GetCurrentState entity (storage f).

Definition FSM_GetTransitions (f : FSM S) (entity : Entity)
  : result (list EntityTransition) :=
  GetTransitions entity (storage f).

Definition CanTrigger (f : FSM S) (entity : Entity) (event : Event) : bool :=
  match GetCurrentState entity (storage f) with
  | Err _ => false
  | Ok currentState =>
      match findNextState f currentState event with
      | Ok _ => true
      | Err _ => false
      end
  end.

Definition GetAvailableEvents (f : FSM S) (entity : Entity) : result (list Event) :=
  match GetCurrentState entity (storage f) with
  | Err err => Err err
  | Ok currentState =>
      Ok (map Transition_Event
            (filter (fun t => State_Name (From t) =? State_Name currentState)
               (transitions f)))
  end.

End Engine.


(** ** The document-approval workflow of the test suite *)

Module Workflow.

Definition st (n : string) : State := {| State_Name := n |}.
Definition ev (n : string) : Event := {| Event_Name := n |}.

(** A declared transition: [CreatedAt] and [CreatedBy] keep Go's zero
    values. *)
Definition tr (from : string) (event : string) (to : string) : Transition :=
  {| From := st from; To := st to; Transition_Event := ev event;
     CreatedAt := 0%Z; CreatedBy := "" |}.

Definition testStates : list State :=
  [st "draft"; st "submitted"; st "approved"; st "rejected"; st "published"].

Definition testEvents : list Event :=
  [ev "submit"; ev "approve"; ev "reject"; ev "publish"; ev "revise"].

Definition testTransitions : list Transition :=
  [tr "draft" "submit" "submitted";
   tr "submitted" "approve" "approved";
   tr "submitted" "reject" "rejected";
   tr "approved" "publish" "published";
   tr "rejected" "revise" "draft"].

(** [newTestFSM]: the engine the tests build, as [New] returns it. *)
Definition newTestFSM : FSM MemoryStorage.t :=
  {| states := testStates; events := testEvents;
     transitions := testTransitions;
     storage := MemoryStorage.NewMemoryStorage |}.

Definition doc1 : Entity := {| Entity_Type := "document"; Entity_ID := "doc-1" |}.
Definition doc2 : Entity := {| Entity_Type := "document"; Entity_ID := "doc-2" |}.

(** Two declarations for the same state and event, with different
    targets. *)
Definition dupTransitions : list Transition :=
  [tr "draft" "submit" "submitted"; tr "draft" "submit" "approved"].

Definition dupFSM : FSM MemoryStorage.t :=
  {| states := testStates; events := testEvents;
     transitions := dupTransitions;
     storage := MemoryStorage.NewMemoryStorage |}.

End Workflow.

(** ** Runs of the engine *)

(** A mutating call together with the clock reading it takes. *)
Inductive Op : Type :=
| OpStart (entity : Entity) (initialState : State) (createdBy : string) (now : Z)
| OpTrigger (entity : Entity) (event : Event) (createdBy : string) (now : Z).

Definition opTime (o : Op) : Z :=
  match o with
  | OpStart _ _ _ now => now
  | OpTrigger _ _ _ now => now
  end.

Definition opEntity (o : Op) : Entity :=
  match o with
  | OpStart entity _ _ _ => entity
  | OpTrigger entity _ _ _ => entity
  end.

Section Runs.

Context {S : Type} `{Storage S}.

Definition step (f : FSM S) (o : Op) : FSM S :=
  match o with
  | OpStart entity initialState createdBy now =>
      snd (Start f entity initialState createdBy now)
  | OpTrigger entity event createdBy now =>
      snd (Trigger f entity event createdBy now)
  end.

(** The calls of [ops] one after the other, whether they fail or not. *)
Definition run (f : FSM S) (ops : list Op) : FSM S := fold_left step ops f.

End Runs.

(** The genesis shape: empty [From], event [start]. *)
Definition isGenesis (et : EntityTransition) : bool :=
  (State_Name (From (ET_Transition et)) =? "") &&
  (Event_Name (Transition_Event (ET_Transition et)) =? "start").

Definition timestamps (h : list EntityTransition) : list Z :=
  map (fun et => CreatedAt (ET_Transition et)) h.

(** ** Vocabulary of the statements *)

(** What the validation loop of [New] accepts. *)
Definition wellReferenced (sts : list State) (evs : list Event) (t : Transition) : Prop :=
  In (From t) sts /\ In (To t) sts /\ In (Transition_Event t) evs.

(** A declared transition answers the query [(from, event)]. *)
Definition answers (from : State) (event : Event) (t : Transition) : Prop :=
  From t = from /\ Transition_Event t = event.

(** The most recent record of a history listed oldest first. *)
Definition latest (h : list EntityTransition) : option EntityTransition :=
  hd_error (rev h).

(** The log of the in-memory store of an engine. *)
Definition logOf (f : FSM MemoryStorage.t) : list EntityTransition :=
  MemoryStorage.transitions (storage f).

(** The record [Start] appends. *)
Definition genesisRecord (entity : Entity) (initialState : State)
  (createdBy : string) (now : Z) : EntityTransition :=
  {| ET_Entity := entity;
     ET_Transition := {| From := {| State_Name := "" |};
                         To := initialState;
                         Transition_Event := {| Event_Name := "start" |};
                         CreatedAt := now;
                         CreatedBy := createdBy |} |}.

(** The record [Trigger] appends on the move [from -event-> to]. *)
Definition moveRecord (entity : Entity) (from : State) (event : Event) (to : State)
  (createdBy : string) (now : Z) : EntityTransition :=
  {| ET_Entity := entity;
     ET_Transition := {| From := from;
                         To := to;
                         Transition_Event := event;
                         CreatedAt := now;
                         CreatedBy := createdBy |} |}.

(** The engine [f] with [et] appended to the log of its store. *)
Definition appended (f : FSM MemoryStorage.t) (et : EntityTransition)
  : FSM MemoryStorage.t :=
  withStorage f {| MemoryStorage.transitions := logOf f ++ [et] |}.

Definition State_eq_dec (a b : State) : {a = b} + {a <> b}.
Proof. decide equality; apply string_dec. Defined.

Definition Entity_eq_dec (a b : Entity) : {a = b} + {a <> b}.
Proof. decide equality; apply string_dec. Defined.

(** The records of [entity] in a log, in the order of the log. *)
Definition recordsOf (entity : Entity) (log : list EntityTransition)
  : list EntityTransition :=
  filter (fun et => if Entity_eq_dec (ET_Entity et) entity then true else false) log.

(** The declared transitions that leave the state [s], in declaration
    order. *)
Definition leaving (s : State) (ts : list Transition) : list Transition :=
  filter (fun t => if State_eq_dec (From t) s then true else false) ts.


Unset Implicit Arguments.

(** ** Checks on the test workflow *)

Example New_test_workflow :
  New Workflow.testStates Workflow.testEvents Workflow.testTransitions
    (Some MemoryStorage.NewMemoryStorage) = Ok Workflow.newTestFSM.
Proof. reflexivity. Qed.

Example New_dup_workflow :
  New Workflow.testStates Workflow.testEvents Workflow.dupTransitions
    (Some MemoryStorage.NewMemoryStorage) = Ok Workflow.dupFSM.
Proof. reflexivity. Qed.

Example rejection_revision_scenario :
  let f := run Workflow.newTestFSM
             [OpStart Workflow.doc1 (Workflow.st "draft") "alice" 1;
              OpTrigger Workflow.doc1 (Workflow.ev "submit") "alice" 2;
              OpTrigger Workflow.doc1 (Workflow.ev "reject") "bob" 3;
              OpTrigger Workflow.doc1 (Workflow.ev "revise") "alice" 4]%Z in
  GetState f Workflow.doc1 = Ok (Workflow.st "draft") /\
  (exists h, FSM_GetTransitions f Workflow.doc1 = Ok h /\ length h = 4) /\
  GetAvailableEvents f Workflow.doc1 = Ok [Workflow.ev "submit"].
Proof. vm_compute. repeat split. eexists; split; reflexivity. Qed.

Example trigger_unknown_entity :
  exists e, fst (Trigger Workflow.newTestFSM Workflow.doc1 (Workflow.ev "submit") "alice" 1%Z) = Some e
            /\ errors_Is e ErrEntityNotFound = true.
Proof. eexists; split; reflexivity. Qed.

(** ** Equality tests *)

Lemma State_Name_inj (a b : State) : State_Name a = State_Name b -> a = b.
Proof. destruct a, b; simpl; congruence. Qed.

Lemma Event_Name_inj (a b : Event) : Event_Name a = Event_Name b -> a = b.
Proof. destruct a, b; simpl; congruence. Qed.

Lemma sameEntity_true (entity : Entity) (et : EntityTransition) :
  MemoryStorage.sameEntity entity et = true <-> ET_Entity et = entity.
Proof.
  unfold MemoryStorage.sameEntity.
  rewrite andb_true_iff, !String.eqb_eq.
  destruct (ET_Entity et) as [ty id], entity as [ty' id']; simpl.
  split; [intros [-> ->]; reflexivity | intros E; inversion E; auto].
Qed.

Lemma sameEntity_refl (et : EntityTransition) :
  MemoryStorage.sameEntity (ET_Entity et) et = true.
Proof. apply sameEntity_true; reflexivity. Qed.

Lemma sameEntity_other (a b : Entity) (et : EntityTransition) :
  a <> b -> ET_Entity et = a -> MemoryStorage.sameEntity b et = false.
Proof.
  intros Hab Ha. destruct (MemoryStorage.sameEntity b et) eqn:E; [|reflexivity].
  apply sameEntity_true in E. congruence.
Qed.

(** ** Validation *)

Lemma validateState_None (s : State) (sts : list State) :
  validateState s sts = None <-> In s sts.
Proof.
  induction sts as [|x sts IH]; simpl.
  - split; [discriminate | contradiction].
  - destruct (State_Name x =? State_Name s) eqn:E.
    + apply String.eqb_eq, State_Name_inj in E. tauto.
    + apply String.eqb_neq in E. rewrite IH.
      split; [tauto | intros [-> | ?]; [contradiction E; reflexivity | assumption]].
Qed.

Lemma validateState_Some (s : State) (sts : list State) (e : error) :
  validateState s sts = Some e ->
  e = wrapError "%w: state %q is not valid" [State_Name s] ErrInvalidState.
Proof.
  induction sts as [|x sts IH]; simpl.
  - congruence.
  - destruct (State_Name x =? State_Name s); [discriminate | exact IH].
Qed.

Lemma validateEvent_None (e : Event) (evs : list Event) :
  validateEvent e evs = None <-> In e evs.
Proof.
  induction evs as [|x evs IH]; simpl.
  - split; [discriminate | contradiction].
  - destruct (Event_Name x =? Event_Name e) eqn:E.
    + apply String.eqb_eq, Event_Name_inj in E. tauto.
    + apply String.eqb_neq in E. rewrite IH.
      split; [tauto | intros [-> | ?]; [contradiction E; reflexivity | assumption]].
Qed.

Lemma validateEvent_Some (e : Event) (evs : list Event) (err : error) :
  validateEvent e evs = Some err ->
  err = wrapError "%w: event %q is not valid" [Event_Name e] ErrInvalidEvent.
Proof.
  induction evs as [|x evs IH]; simpl.
  - congruence.
  - destruct (Event_Name x =? Event_Name e); [discriminate | exact IH].
Qed.

Lemma validateState_cases (s : State) (sts : list State) :
  (In s sts /\ validateState s sts = None) \/
  (~ In s sts /\
   validateState s sts =
   Some (wrapError "%w: state %q is not valid" [State_Name s] ErrInvalidState)).
Proof.
  destruct (validateState s sts) as [e|] eqn:E.
  - right. split.
    + rewrite <- validateState_None. congruence.
    + f_equal. eapply validateState_Some; eassumption.
  - left. split; [apply validateState_None; assumption | reflexivity].
Qed.

Lemma validateEvent_cases (e : Event) (evs : list Event) :
  (In e evs /\ validateEvent e evs = None) \/
  (~ In e evs /\
   validateEvent e evs =
   Some (wrapError "%w: event %q is not valid" [Event_Name e] ErrInvalidEvent)).
Proof.
  destruct (validateEvent e evs) as [x|] eqn:E.
  - right. split.
    + rewrite <- validateEvent_None. congruence.
    + f_equal. eapply validateEvent_Some; eassumption.
  - left. split; [apply validateEvent_None; assumption | reflexivity].
Qed.

Lemma validateTransitions_None (ts : list Transition) (sts : list State)
  (evs : list Event) :
  validateTransitions ts sts evs = None <-> Forall (wellReferenced sts evs) ts.
Proof.
  induction ts as [|t ts IH]; simpl.
  - split; [constructor | reflexivity].
  - destruct (validateState_cases (From t) sts) as [[Hf ->] | [Hf ->]];
      [| split; [discriminate | intros F; inversion F as [|? ? [? _] _]; contradiction]].
    destruct (validateState_cases (To t) sts) as [[Ht ->] | [Ht ->]];
      [| split; [discriminate | intros F; inversion F as [|? ? [_ [? _]] _]; contradiction]].
    destruct (validateEvent_cases (Transition_Event t) evs) as [[He ->] | [He ->]];
      [| split; [discriminate | intros F; inversion F as [|? ? [_ [_ ?]] _]; contradiction]].
    rewrite IH. split.
    + intros F. constructor; [repeat split; assumption | assumption].
    + intros F. inversion F; assumption.
Qed.

(** ** The in-memory store *)

Lemma scanBackward_prefix (l : list EntityTransition) (x : EntityTransition)
  (entity : Entity) (n : nat) :
  n <= length l ->
  MemoryStorage.scanBackward (l ++ [x]) entity n = MemoryStorage.scanBackward l entity n.
Proof.
  induction n as [|i IH]; intros Hn; simpl.
  - reflexivity.
  - rewrite nth_error_app1 by lia. rewrite IH by lia. reflexivity.
Qed.

Lemma scanBackward_snoc (l : list EntityTransition) (x : EntityTransition)
  (entity : Entity) :
  MemoryStorage.scanBackward (l ++ [x]) entity (length (l ++ [x])) =
  if MemoryStorage.sameEntity entity x then Ok (To (ET_Transition x))
  else MemoryStorage.scanBackward l entity (length l).
Proof.
  rewrite length_app, Nat.add_comm. simpl.
  rewrite nth_error_app2 by lia. rewrite Nat.sub_diag. simpl.
  rewrite scanBackward_prefix by lia. reflexivity.
Qed.

Lemma filter_snoc (A : Type) (p : A -> bool) (l : list A) (x : A) :
  filter p (l ++ [x]) = filter p l ++ (if p x then [x] else []).
Proof. rewrite filter_app. reflexivity. Qed.

Lemma latest_snoc (h : list EntityTransition) (x : EntityTransition) :
  latest (h ++ [x]) = Some x.
Proof. unfold latest. rewrite rev_unit. reflexivity. Qed.

(** The backward scan finds the last record of the entity's history. *)
Lemma scanBackward_latest (l : list EntityTransition) (entity : Entity) :
  MemoryStorage.scanBackward l entity (length l) =
  match latest (filter (MemoryStorage.sameEntity entity) l) with
  | Some et => Ok (To (ET_Transition et))
  | None => Err ErrEntityNotFound
  end.
Proof.
  induction l as [|x l IH] using rev_ind.
  - reflexivity.
  - rewrite scanBackward_snoc, filter_snoc.
    destruct (MemoryStorage.sameEntity entity x).
    + rewrite latest_snoc. reflexivity.
    + rewrite app_nil_r. exact IH.
Qed.

Lemma GetState_latest (f : FSM MemoryStorage.t) (entity : Entity) :
  GetState f entity =
  match latest (filter (MemoryStorage.sameEntity entity) (logOf f)) with
  | Some et => Ok (To (ET_Transition et))
  | None => Err ErrEntityNotFound
  end.
Proof. apply scanBackward_latest. Qed.

Lemma GetState_appended (f : FSM MemoryStorage.t) (et : EntityTransition)
  (entity : Entity) :
  GetState (appended f et) entity =
  if MemoryStorage.sameEntity entity et then Ok (To (ET_Transition et))
  else GetState f entity.
Proof. apply scanBackward_snoc. Qed.

Lemma GetTransitions_appended (f : FSM MemoryStorage.t) (et : EntityTransition)
  (entity : Entity) :
  FSM_GetTransitions (appended f et) entity =
  Ok (filter (MemoryStorage.sameEntity entity) (logOf f) ++
      (if MemoryStorage.sameEntity entity et then [et] else [])).
Proof.
  unfold FSM_GetTransitions, appended, logOf; simpl.
  unfold MemoryStorage.GetTransitions; simpl. rewrite filter_snoc. reflexivity.
Qed.

Lemma latest_None (h : list EntityTransition) : latest h = None <-> h = [].
Proof.
  destruct h as [|x h] using rev_ind.
  - split; reflexivity.
  - rewrite latest_snoc. split; [discriminate | intros E].
    destruct h; discriminate.
Qed.

(** ** The engine over the in-memory store *)

Lemma Start_eq (f : FSM MemoryStorage.t) (entity : Entity) (initialState : State)
  (createdBy : string) (now : Z) :
  Start f entity initialState createdBy now =
  match validateState initialState (states f) with
  | Some err => (Some err, f)
  | None => (None, appended f (genesisRecord entity initialState createdBy now))
  end.
Proof. unfold Start. destruct (validateState initialState (states f)); reflexivity. Qed.

Lemma Trigger_eq (f : FSM MemoryStorage.t) (entity : Entity) (event : Event)
  (createdBy : string) (now : Z) :
  Trigger f entity event createdBy now =
  match GetState f entity with
  | Err err => (Some (wrapError "failed to get current state: %w" [] err), f)
  | Ok currentState =>
      match validateEvent event (events f) with
      | Some err => (Some err, f)
      | None =>
          match findNextState f currentState event with
          | Err err => (Some err, f)
          | Ok nextState =>
              (None, appended f (moveRecord entity currentState event nextState
                                   createdBy now))
          end
      end
  end.
Proof.
  unfold Trigger, GetState.
  destruct (GetCurrentState entity (storage f)); [|reflexivity].
  destruct (validateEvent event (events f)); [reflexivity|].
  destruct (findNextState f a event); reflexivity.
Qed.

(** ** Transition lookup *)

Lemma answers_test (from : State) (event : Event) (t : Transition) :
  (State_Name (From t) =? State_Name from) &&
  (Event_Name (Transition_Event t) =? Event_Name event) = true <->
  answers from event t.
Proof.
  unfold answers. rewrite andb_true_iff, !String.eqb_eq. split.
  - intros [Hs He]. split; [apply State_Name_inj | apply Event_Name_inj]; assumption.
  - intros [-> ->]. split; reflexivity.
Qed.

Lemma answers_test_false (from : State) (event : Event) (t : Transition) :
  (State_Name (From t) =? State_Name from) &&
  (Event_Name (Transition_Event t) =? Event_Name event) = false <->
  ~ answers from event t.
Proof.
  rewrite <- answers_test.
  destruct ((State_Name (From t) =? State_Name from) &&
            (Event_Name (Transition_Event t) =? Event_Name event));
    split; congruence.
Qed.

Section Lookup.

Context {S : Type} `{Storage S}.

Lemma findNextState_loop_Ok (ts : list Transition) (from : State) (event : Event)
  (to : State) :
  findNextState_loop ts from event = Ok to <->
  exists before t after,
    ts = before ++ t :: after /\
    Forall (fun u => ~ answers from event u) before /\
    answers from event t /\ To t = to.
Proof.
  induction ts as [|x ts IH]; simpl.
  - split; [discriminate | intros (b & t & a & E & _)].
    destruct b; discriminate.
  - destruct (_ && _) eqn:T.
    + apply answers_test in T. split.
      * intros E. injection E as <-. exists [], x, ts. auto.
      * intros (b & t & a & E & Hb & Ht & <-).
        destruct b as [|y b]; simpl in E; injection E as -> ->; [reflexivity|].
        inversion Hb; contradiction.
    + apply answers_test_false in T. rewrite IH. split.
      * intros (b & t & a & -> & Hb & Ht & Hto).
        exists (x :: b), t, a. auto.
      * intros (b & t & a & E & Hb & Ht & Hto).
        destruct b as [|y b]; simpl in E; injection E as -> ->; [contradiction|].
        exists b, t, a. inversion Hb; auto.
Qed.

Lemma findNextState_loop_Err (ts : list Transition) (from : State) (event : Event)
  (err : error) :
  findNextState_loop ts from event = Err err <->
  Forall (fun u => ~ answers from event u) ts /\
  err = wrapError "%w: no transition from %q with event %q"
          [State_Name from; Event_Name event] ErrInvalidTransition.
Proof.
  induction ts as [|x ts IH]; simpl.
  - split; [intros E; injection E as <-; auto | intros [_ ->]; reflexivity].
  - destruct (_ && _) eqn:T.
    + apply answers_test in T. split; [discriminate | intros [F _]].
      inversion F; contradiction.
    + apply answers_test_false in T. rewrite IH. split.
      * intros [F E]. auto.
      * intros [F E]. inversion F; auto.
Qed.

(** C2.  The lookup [findNextState] scans the declared transitions in
    declaration order: it returns [to] exactly when the list splits into
    entries that do not answer the query, then an entry that does and whose
    target is [to]; it fails, with an error that is [ErrInvalidTransition],
    exactly when no entry answers.  So of several declarations for one
    [(from, event)] the earliest decides.  [GetNextState] is this lookup,
    [CanTrigger] is true exactly when the lookup from the current state
    succeeds, and [Trigger], past its two checks, fails with the lookup's
    error or saves a record whose target is the lookup's result. *)
Theorem findNextState_first_match (f : FSM S) (from : State) (event : Event) :
  (forall to,
     findNextState f from event = Ok to <->
     exists before t after,
       transitions f = before ++ t :: after /\
       Forall (fun u => ~ answers from event u) before /\
       answers from event t /\ To t = to) /\
  (forall err,
     findNextState f from event = Err err <->
     Forall (fun u => ~ answers from event u) (transitions f) /\
     err = wrapError "%w: no transition from %q with event %q"
             [State_Name from; Event_Name event] ErrInvalidTransition) /\
  (forall err,
     findNextState f from event = Err err ->
     errors_Is err ErrInvalidTransition = true) /\
  (forall before t mid u after,
     transitions f = before ++ t :: mid ++ u :: after ->
     Forall (fun v => ~ answers from event v) before ->
     answers from event t -> answers from event u ->
     findNextState f from event = Ok (To t)) /\
  GetNextState f from event = findNextState f from event /\
  (forall entity,
     CanTrigger f entity event = true <->
     exists s to, GetState f entity = Ok s /\ findNextState f s event = Ok to) /\
  (forall entity createdBy now,
     GetState f entity = Ok from -> In event (events f) ->
     match findNextState f from event with
     | Err err => Trigger f entity event createdBy now = (Some err, f)
     | Ok to =>
         Trigger f entity event createdBy now =
         (fst (SaveTransition (moveRecord entity from event to createdBy now)
                 (storage f)),
          withStorage f
            (snd (SaveTransition (moveRecord entity from event to createdBy now)
                    (storage f))))
     end).
Proof.
  unfold findNextState, GetNextState.
  split; [intros to; apply findNextState_loop_Ok|].
  split; [intros err; apply findNextState_loop_Err|].
  split; [intros err E; apply findNextState_loop_Err in E as [_ ->]; reflexivity|].
  split.
  { intros before t mid u after E Hb Ht _.
    apply findNextState_loop_Ok. exists before, t, (mid ++ u :: after). auto. }
  split; [reflexivity|].
  split.
  { intros entity. unfold CanTrigger, GetState, findNextState.
    destruct (GetCurrentState entity (storage f)) as [s|e].
    - destruct (findNextState_loop (transitions f) s event) as [to|e] eqn:E.
      + split; [intros _; exists s, to; auto | reflexivity].
      + split; [discriminate | intros (s' & to & Es & Eto)].
        injection Es as <-. congruence.
    - split; [discriminate | intros (s' & to & Es & _); discriminate]. }
  intros entity createdBy now Hs He.
  unfold Trigger, GetState, findNextState in *. rewrite Hs.
  apply validateEvent_None in He. rewrite He.
  destruct (findNextState_loop (transitions f) from event) as [to|e]; [|reflexivity].
  unfold moveRecord.
  destruct (SaveTransition _ (storage f)) as [err s]. reflexivity.
Qed.

End Lookup.

(** An instance: in a workflow that declares
    [draft -submit-> submitted] before [draft -submit-> approved], the first
    one decides. *)
Lemma findNextState_first_match_witness :
  findNextState Workflow.dupFSM (Workflow.st "draft") (Workflow.ev "submit") =
  Ok (Workflow.st "submitted").
Proof.
  apply (proj1 (proj2 (proj2 (proj2
           (findNextState_first_match Workflow.dupFSM
              (Workflow.st "draft") (Workflow.ev "submit")))))
           [] (Workflow.tr "draft" "submit" "submitted") []
           (Workflow.tr "draft" "submit" "approved") []).
  - reflexivity.
  - constructor.
  - split; reflexivity.
  - split; reflexivity.
Defined.

(** ** Construction *)

Lemma validateTransitions_Some (ts : list Transition) (sts : list State)
  (evs : list Event) (err : error) :
  validateTransitions ts sts evs = Some err ->
  exists t, In t ts /\
            (~ In (From t) sts \/ ~ In (To t) sts \/ ~ In (Transition_Event t) evs).
Proof.
  induction ts as [|t ts IH]; simpl; [discriminate|].
  destruct (validateState_cases (From t) sts) as [[Hf ->] | [Hf ->]];
    [| intros _; exists t; auto].
  destruct (validateState_cases (To t) sts) as [[Ht ->] | [Ht ->]];
    [| intros _; exists t; auto].
  destruct (validateEvent_cases (Transition_Event t) evs) as [[He ->] | [He ->]];
    [| intros _; exists t; auto].
  intros E. destruct (IH E) as (u & Hu & Hbad). exists u. auto.
Qed.

Lemma validateTransitions_bad (ts : list Transition) (sts : list State)
  (evs : list Event) (t : Transition) :
  In t ts ->
  ~ In (From t) sts \/ ~ In (To t) sts \/ ~ In (Transition_Event t) evs ->
  exists err, validateTransitions ts sts evs = Some err.
Proof.
  intros Hin Hbad.
  destruct (validateTransitions ts sts evs) as [err|] eqn:E; [eauto|].
  apply validateTransitions_None in E. rewrite Forall_forall in E.
  destruct (E t Hin) as (? & ? & ?). tauto.
Qed.

Section Construction.

Context {S : Type} `{Storage S}.

(** C3.  [New] fails, returning an error and no engine, exactly when the
    states, the events or the transitions are empty, the storage is [nil],
    or a declared transition names a [From] or [To] state outside the
    declared states or an event outside the declared events.  Otherwise it
    returns the engine holding the four arguments.  Nothing else is
    checked: a further declaration whose states and event are declared
    never makes construction fail, whether or not it repeats the state and
    event of an earlier declaration. *)
Theorem New_fails_exactly (sts : list State) (evs : list Event)
  (ts : list Transition) (st : option S) :
  ((exists err, New sts evs ts st = Err err) <->
   sts = [] \/ evs = [] \/ ts = [] \/ st = None \/
   exists t, In t ts /\
             (~ In (From t) sts \/ ~ In (To t) sts \/
              ~ In (Transition_Event t) evs)) /\
  (forall f,
     New sts evs ts st = Ok f <->
     sts <> [] /\ evs <> [] /\ ts <> [] /\
     Forall (wellReferenced sts evs) ts /\
     exists s, st = Some s /\
               f = {| states := sts; events := evs; transitions := ts;
                      storage := s |}) /\
  (forall f u,
     New sts evs ts st = Ok f -> wellReferenced sts evs u ->
     New sts evs (ts ++ [u]) st =
     Ok {| states := sts; events := evs; transitions := ts ++ [u];
           storage := storage f |}).
Proof.
  assert (Hok : forall ts' f,
     New sts evs ts' st = Ok f <->
     sts <> [] /\ evs <> [] /\ ts' <> [] /\
     Forall (wellReferenced sts evs) ts' /\
     exists s, st = Some s /\
               f = {| states := sts; events := evs; transitions := ts';
                      storage := s |}).
  { intros ts' f. unfold New.
    destruct sts as [|s0 sts']; simpl; [split; [discriminate | tauto]|].
    destruct evs as [|e0 evs']; simpl; [split; [discriminate | tauto]|].
    destruct ts' as [|t0 ts'']; [simpl; split; [discriminate | tauto]|].
    cbn [length Nat.eqb].
    destruct st as [s|];
      [| split; [discriminate | intros (_ & _ & _ & _ & s & E & _); discriminate]].
    destruct (validateTransitions (t0 :: ts'') (s0 :: sts') (e0 :: evs'))
      as [err|] eqn:V.
    - split; [discriminate | intros (_ & _ & _ & F & _)].
      apply validateTransitions_None in F. congruence.
    - apply validateTransitions_None in V. split.
      + intros E. injection E as <-.
        repeat (split; [discriminate || assumption|]). eauto.
      + intros (_ & _ & _ & _ & s' & E & ->). injection E as <-. reflexivity. }
  split; [| split; [apply Hok|]].
  - split.
    + intros [err E]. unfold New in E.
      destruct sts as [|s0 sts']; [auto|].
      destruct evs as [|e0 evs']; [auto|].
      destruct ts as [|t0 ts']; [auto|].
      cbn [length Nat.eqb] in E.
      destruct st as [s|]; [|auto].
      destruct (validateTransitions (t0 :: ts') (s0 :: sts') (e0 :: evs'))
        as [err'|] eqn:V; [|discriminate].
      do 4 right. eapply validateTransitions_Some; eassumption.
    + intros P. unfold New.
      destruct sts as [|s0 sts']; [simpl; eauto|].
      destruct evs as [|e0 evs']; [simpl; eauto|].
      destruct ts as [|t0 ts']; [simpl; eauto|].
      cbn [length Nat.eqb].
      destruct st as [s|]; [|eauto].
      destruct P as [P | [P | [P | [P | (t & Hin & Hbad)]]]]; try discriminate.
      destruct (validateTransitions_bad _ _ _ _ Hin Hbad) as [err ->]. eauto.
  - intros f u E Hu. apply Hok in E as (Hs & He & Ht & F & s & -> & ->).
    apply Hok. repeat (split; [assumption|]).
    split; [destruct ts; discriminate|].
    split; [apply Forall_app; auto|]. eauto.
Qed.

End Construction.

(** An instance: the test workflow, extended by
    a second declaration for [draft] and [submit], is accepted. *)
Lemma New_fails_exactly_witness :
  New Workflow.testStates Workflow.testEvents
    (Workflow.testTransitions ++ [Workflow.tr "draft" "submit" "approved"])
    (Some MemoryStorage.NewMemoryStorage) =
  Ok {| states := Workflow.testStates; events := Workflow.testEvents;
        transitions :=
          Workflow.testTransitions ++ [Workflow.tr "draft" "submit" "approved"];
        storage := MemoryStorage.NewMemoryStorage |}.
Proof.
  apply (proj2 (proj2 (New_fails_exactly Workflow.testStates Workflow.testEvents
                         Workflow.testTransitions
                         (Some MemoryStorage.NewMemoryStorage)))
           Workflow.newTestFSM (Workflow.tr "draft" "submit" "approved")).
  - reflexivity.
  - unfold wellReferenced; simpl; tauto.
Defined.

(** ** Start *)

Lemma errors_Is_unfold (err target : error) :
  errors_Is err target =
  if error_eq_dec err target then true
  else match err with
       | errorString _ => false
       | wrapError _ _ inner => errors_Is inner target
       end.
Proof. destruct err; reflexivity. Qed.

Lemma errors_Is_refl (err : error) : errors_Is err err = true.
Proof.
  rewrite errors_Is_unfold.
  destruct (error_eq_dec err err); [reflexivity | congruence].
Qed.

Lemma errors_Is_wrapped (format : string) (args : list string) (target : error) :
  errors_Is (wrapError format args target) target = true.
Proof.
  rewrite errors_Is_unfold.
  destruct (error_eq_dec (wrapError format args target) target);
    [reflexivity | apply errors_Is_refl].
Qed.

(** C7.  [Start] with an undeclared initial state fails with an error that
    is [ErrInvalidState] and leaves the store as it was.  With a declared
    one it appends exactly one record to the log: empty [From], event
    [start], [To] the initial state; the entity's current state is then the
    initial state.  The entity's earlier records are not consulted, so a
    second [Start] on the same entity succeeds as well, appends a second
    such record, and its initial state becomes the current state. *)
Theorem Start_genesis (f : FSM MemoryStorage.t) (entity : Entity)
  (initialState : State) (createdBy : string) (now : Z) :
  (~ In initialState (states f) ->
   exists err,
     Start f entity initialState createdBy now = (Some err, f) /\
     errors_Is err ErrInvalidState = true) /\
  (In initialState (states f) ->
   exists r,
     Start f entity initialState createdBy now = (None, appended f r) /\
     logOf (appended f r) = logOf f ++ [r] /\
     ET_Entity r = entity /\
     From (ET_Transition r) = {| State_Name := "" |} /\
     Transition_Event (ET_Transition r) = {| Event_Name := "start" |} /\
     To (ET_Transition r) = initialState /\
     CreatedBy (ET_Transition r) = createdBy /\
     CreatedAt (ET_Transition r) = now /\
     GetState (appended f r) entity = Ok initialState) /\
  (forall second createdBy2 now2,
     In initialState (states f) -> In second (states f) ->
     let f1 := snd (Start f entity initialState createdBy now) in
     let f2 := snd (Start f1 entity second createdBy2 now2) in
     fst (Start f1 entity second createdBy2 now2) = None /\
     logOf f2 =
     logOf f ++ [genesisRecord entity initialState createdBy now;
                 genesisRecord entity second createdBy2 now2] /\
     GetState f2 entity = Ok second).
Proof.
  split; [| split].
  - intros Hs. rewrite Start_eq.
    destruct (validateState_cases initialState (states f)) as [[Hin _] | [_ ->]];
      [contradiction|].
    eexists. split; [reflexivity | apply errors_Is_wrapped].
  - intros Hs. rewrite Start_eq.
    apply validateState_None in Hs. rewrite Hs.
    exists (genesisRecord entity initialState createdBy now).
    repeat (split; [reflexivity|]).
    rewrite GetState_appended. unfold genesisRecord at 1.
    rewrite (sameEntity_refl (mkEntityTransition entity _)). reflexivity.
  - intros second createdBy2 now2 H1 H2. cbv zeta.
    apply validateState_None in H1, H2.
    rewrite (Start_eq f), H1. simpl snd.
    rewrite Start_eq. simpl states. rewrite H2. simpl fst. simpl snd.
    split; [reflexivity|]. split.
    + unfold appended, logOf; simpl. rewrite <- app_assoc. reflexivity.
    + rewrite GetState_appended. unfold genesisRecord at 1.
      rewrite (sameEntity_refl (mkEntityTransition entity _)). reflexivity.
Qed.

(** An instance: two starts of the same document. *)
Lemma Start_genesis_witness :
  In (Workflow.st "draft") (states Workflow.newTestFSM) /\
  In (Workflow.st "approved") (states Workflow.newTestFSM) /\
  GetState
    (snd (Start (snd (Start Workflow.newTestFSM Workflow.doc1
                        (Workflow.st "draft") "alice" 1%Z))
            Workflow.doc1 (Workflow.st "approved") "bob" 2%Z))
    Workflow.doc1 = Ok (Workflow.st "approved").
Proof.
  assert (H1 : In (Workflow.st "draft") (states Workflow.newTestFSM))
    by (simpl; tauto).
  assert (H2 : In (Workflow.st "approved") (states Workflow.newTestFSM))
    by (simpl; tauto).
  split; [exact H1|]. split; [exact H2|].
  exact (proj2 (proj2 (proj2 (proj2
           (Start_genesis Workflow.newTestFSM Workflow.doc1
              (Workflow.st "draft") "alice" 1%Z))
           (Workflow.st "approved") "bob" 2%Z H1 H2))).
Defined.

(** ** Sorted sequences of instants *)

Lemma StronglySorted_snoc (l : list Z) (x : Z) :
  StronglySorted Z.le l -> Forall (fun y => (y <= x)%Z) l ->
  StronglySorted Z.le (l ++ [x]).
Proof.
  induction 1 as [|a l Hs IH Ha]; intros F; simpl.
  - repeat constructor.
  - inversion F as [|? ? Hax Fl]; subst. constructor; [auto|].
    apply Forall_app. split; [assumption | repeat constructor; assumption].
Qed.

Lemma StronglySorted_snoc_inv (l : list Z) (x : Z) :
  StronglySorted Z.le (l ++ [x]) ->
  StronglySorted Z.le l /\ Forall (fun y => (y <= x)%Z) l.
Proof.
  induction l as [|a l IH]; simpl; intros Hs.
  - split; constructor.
  - inversion Hs as [|? ? Hl Ha]; subst.
    destruct (IH Hl) as [Hl' Fx]. apply Forall_app in Ha as [Ha Hax].
    split; constructor; auto. inversion Hax; assumption.
Qed.


Lemma sorted_latest_max (h : list EntityTransition) (r : EntityTransition) :
  StronglySorted Z.le (timestamps h) -> latest h = Some r ->
  Forall (fun et => (CreatedAt (ET_Transition et) <= CreatedAt (ET_Transition r))%Z) h.
Proof.
  destruct h as [|x h _] using rev_ind; [discriminate|].
  rewrite latest_snoc. intros Hs E. injection E as <-.
  unfold timestamps in Hs. rewrite map_app in Hs. simpl in Hs.
  apply StronglySorted_snoc_inv in Hs as [_ F].
  apply Forall_app. split.
  - rewrite Forall_forall in *. intros et Het. apply F.
    apply in_map_iff. eauto.
  - repeat constructor. lia.
Qed.

(** ** Runs over the in-memory store *)

Lemma run_snoc (f : FSM MemoryStorage.t) (ops : list Op) (o : Op) :
  run f (ops ++ [o]) = step (run f ops) o.
Proof. unfold run. rewrite fold_left_app. reflexivity. Qed.

Lemma logOf_appended (f : FSM MemoryStorage.t) (et : EntityTransition) :
  logOf (appended f et) = logOf f ++ [et].
Proof. reflexivity. Qed.

Lemma timestamps_snoc (l : list EntityTransition) (et : EntityTransition) :
  timestamps (l ++ [et]) = timestamps l ++ [CreatedAt (ET_Transition et)].
Proof. unfold timestamps. rewrite map_app. reflexivity. Qed.

(** A call leaves the log alone or appends one record to it: a record of
    the call's entity, stamped with the call's clock reading, and either of
    genesis shape or appended for an entity that had a current state. *)
Lemma step_log (f : FSM MemoryStorage.t) (o : Op) :
  step f o = f \/
  exists et,
    step f o = appended f et /\
    ET_Entity et = opEntity o /\
    CreatedAt (ET_Transition et) = opTime o /\
    (isGenesis et = true \/ exists s, GetState f (opEntity o) = Ok s).
Proof.
  destruct o as [entity initialState createdBy now | entity event createdBy now];
    cbn [step opEntity opTime].
  - rewrite Start_eq. destruct (validateState initialState (states f)); [auto|].
    right. eexists. split; [reflexivity|]. auto.
  - rewrite Trigger_eq.
    destruct (GetState f entity) as [s|e] eqn:Ecur; [|auto].
    destruct (validateEvent event (events f)); [auto|].
    destruct (findNextState f s event) as [to|e]; [|auto].
    right. exists (moveRecord entity s event to createdBy now).
    simpl. repeat (split; [reflexivity|]). right. exists s. reflexivity.
Qed.

Lemma filter_nil_GetState (f : FSM MemoryStorage.t) (entity : Entity) :
  filter (MemoryStorage.sameEntity entity) (logOf f) = [] ->
  GetState f entity = Err ErrEntityNotFound.
Proof. intros E. rewrite GetState_latest, E. reflexivity. Qed.

(** ** The records of an entity *)

Lemma recordsOf_sameEntity (entity : Entity) (l : list EntityTransition) :
  filter (MemoryStorage.sameEntity entity) l = recordsOf entity l.
Proof.
  unfold recordsOf. apply filter_ext. intros et.
  destruct (Entity_eq_dec (ET_Entity et) entity) as [E|E].
  - apply sameEntity_true. assumption.
  - destruct (MemoryStorage.sameEntity entity et) eqn:Es; [|reflexivity].
    apply sameEntity_true in Es. contradiction.
Qed.

Lemma recordsOf_In (entity : Entity) (l : list EntityTransition)
  (et : EntityTransition) :
  In et (recordsOf entity l) <-> In et l /\ ET_Entity et = entity.
Proof.
  unfold recordsOf. rewrite filter_In.
  destruct (Entity_eq_dec (ET_Entity et) entity); split; intros [? ?];
    split; congruence.
Qed.

Lemma recordsOf_none (entity : Entity) (l : list EntityTransition) :
  Forall (fun et => ET_Entity et <> entity) l -> recordsOf entity l = [].
Proof.
  intros F. destruct (recordsOf entity l) as [|et h] eqn:E; [reflexivity|].
  assert (Hin : In et (recordsOf entity l)) by (rewrite E; left; reflexivity).
  apply recordsOf_In in Hin as [Hin He].
  rewrite Forall_forall in F. destruct (F et Hin He).
Qed.

Lemma recordsOf_last (entity : Entity) (before after : list EntityTransition)
  (r : EntityTransition) :
  ET_Entity r = entity ->
  Forall (fun et => ET_Entity et <> entity) after ->
  recordsOf entity (before ++ r :: after) = recordsOf entity before ++ [r].
Proof.
  intros Hr Fa. unfold recordsOf at 1. rewrite filter_app. simpl.
  destruct (Entity_eq_dec (ET_Entity r) entity); [|contradiction].
  fold (recordsOf entity after). rewrite (recordsOf_none entity after Fa).
  reflexivity.
Qed.

Lemma sorted_before (before after : list EntityTransition)
  (r et : EntityTransition) :
  StronglySorted Z.le (timestamps (before ++ r :: after)) ->
  In et before ->
  (CreatedAt (ET_Transition et) <= CreatedAt (ET_Transition r))%Z.
Proof.
  unfold timestamps. induction before as [|x before IH]; simpl; [contradiction|].
  intros Hs [<- | Hin].
  - inversion Hs as [|? ? _ Hall]; subst. rewrite Forall_forall in Hall.
    apply Hall. apply in_map_iff. exists r. split; [reflexivity|].
    apply in_or_app. right. left. reflexivity.
  - inversion Hs; subst. auto.
Qed.

(** Stamps along a run.  When the stamps already in the log, followed by
    the clock readings of the calls, do not decrease, every stamp of the
    log after the run is one of them, and the stamps do not decrease along
    the log. *)
Lemma run_stamps (f0 : FSM MemoryStorage.t) (ops : list Op) :
  StronglySorted Z.le (timestamps (logOf f0) ++ map opTime ops) ->
  Forall (fun z => In z (timestamps (logOf f0) ++ map opTime ops))
    (timestamps (logOf (run f0 ops))) /\
  StronglySorted Z.le (timestamps (logOf (run f0 ops))).
Proof.
  induction ops as [|o ops IH] using rev_ind; intros Hs.
  - unfold run; cbn [fold_left map] in *. rewrite app_nil_r in *.
    split; [apply Forall_forall; auto | assumption].
  - rewrite map_app, app_assoc in *. cbn [map] in *.
    apply StronglySorted_snoc_inv in Hs as [Hs Hle].
    destruct (IH Hs) as (Hst & Hso). clear IH.
    rewrite run_snoc. set (f := run f0 ops) in *.
    assert (Hst' : Forall (fun z => In z ((timestamps (logOf f0) ++ map opTime ops)
                                           ++ [opTime o]))
                     (timestamps (logOf f))).
    { rewrite Forall_forall in *. intros z Hz. apply in_or_app. left. auto. }
    destruct (step_log f o) as [-> | (et & -> & _ & Ht & _)]; [auto|].
    rewrite logOf_appended, timestamps_snoc, Ht. split.
    + apply Forall_app. split; [assumption|]. constructor; [|constructor].
      apply in_or_app. right. left. reflexivity.
    + apply StronglySorted_snoc; [assumption|].
      rewrite Forall_forall in *. intros z Hz. apply Hle, Hst. assumption.
Qed.


Lemma appended_other (f : FSM MemoryStorage.t) (et : EntityTransition)
  (a b : Entity) :
  a <> b -> ET_Entity et = a ->
  FSM_GetTransitions (appended f et) b = FSM_GetTransitions f b /\
  GetState (appended f et) b = GetState f b.
Proof.
  intros Hab Ha.
  rewrite GetTransitions_appended, GetState_appended.
  rewrite (sameEntity_other a b et Hab Ha), app_nil_r. split; reflexivity.
Qed.

Lemma GetTransitions_own (f : FSM MemoryStorage.t) (entity : Entity) :
  Forall (fun et => ET_Entity et = entity)
    (filter (MemoryStorage.sameEntity entity) (logOf f)).
Proof.
  apply Forall_forall. intros et Het.
  apply filter_In in Het as [_ Het]. apply sameEntity_true. assumption.
Qed.

Lemma filter_absent (f : FSM MemoryStorage.t) (entity : Entity) :
  (forall et, In et (logOf f) -> ET_Entity et <> entity) ->
  filter (MemoryStorage.sameEntity entity) (logOf f) = [].
Proof.
  intros Habs.
  destruct (filter (MemoryStorage.sameEntity entity) (logOf f)) as [|et h] eqn:E;
    [reflexivity|].
  assert (Hin : In et (filter (MemoryStorage.sameEntity entity) (logOf f)))
    by (rewrite E; left; reflexivity).
  apply filter_In in Hin as [Hin Hs]. apply sameEntity_true in Hs.
  destruct (Habs et Hin Hs).
Qed.

(** ** Queries *)

(** C5, as the code has it.  [GetState] returns the [To] state of the
    record of the entity that was appended last: the last record of the
    entity in the log, which is the last element of the history
    [GetTransitions] returns.  Whenever the creation timestamps do not
    decrease along the log this is the chronologically most recent record
    of the entity, the one with the greatest timestamp; and the timestamps
    do not decrease along the log after a run whose clock readings,
    following on the timestamps already stored, do not decrease.  When the
    log holds no record of the entity, [GetState] fails with
    [ErrEntityNotFound], which is an error and not the empty state. *)
Theorem GetState_most_recent (f : FSM MemoryStorage.t) (entity : Entity) :
  FSM_GetTransitions f entity = Ok (recordsOf entity (logOf f)) /\
  GetState f entity =
  match latest (recordsOf entity (logOf f)) with
  | Some r => Ok (To (ET_Transition r))
  | None => Err ErrEntityNotFound
  end /\
  (forall before r after,
     logOf f = before ++ r :: after ->
     ET_Entity r = entity ->
     Forall (fun et => ET_Entity et <> entity) after ->
     GetState f entity = Ok (To (ET_Transition r)) /\
     (StronglySorted Z.le (timestamps (logOf f)) ->
      forall et,
        In et (logOf f) -> ET_Entity et = entity ->
        (CreatedAt (ET_Transition et) <= CreatedAt (ET_Transition r))%Z)) /\
  (Forall (fun et => ET_Entity et <> entity) (logOf f) ->
   GetState f entity = Err ErrEntityNotFound /\
   GetState f entity <> Ok {| State_Name := "" |}) /\
  (forall f0 ops,
     f = run f0 ops ->
     StronglySorted Z.le (timestamps (logOf f0) ++ map opTime ops) ->
     StronglySorted Z.le (timestamps (logOf f))).
Proof.
  assert (HG : GetState f entity =
               match latest (recordsOf entity (logOf f)) with
               | Some r => Ok (To (ET_Transition r))
               | None => Err ErrEntityNotFound
               end).
  { rewrite GetState_latest, recordsOf_sameEntity. reflexivity. }
  split; [| split; [exact HG | split; [| split]]].
  - change (FSM_GetTransitions f entity)
      with (Ok (filter (MemoryStorage.sameEntity entity) (logOf f))).
    rewrite recordsOf_sameEntity. reflexivity.
  - intros before r after E Hr Fa. split.
    + rewrite HG, E, (recordsOf_last entity before after r Hr Fa), latest_snoc.
      reflexivity.
    + intros Hs et Hin He. rewrite E in Hin, Hs.
      apply in_app_or in Hin as [Hin | [<- | Hin]].
      * apply (sorted_before before after r et Hs Hin).
      * lia.
      * rewrite Forall_forall in Fa. destruct (Fa et Hin He).
  - intros Fno. rewrite HG, (recordsOf_none entity (logOf f) Fno).
    split; [reflexivity | discriminate].
  - intros f0 ops -> Hs. apply (run_stamps f0 ops Hs).
Qed.

(** An instance: the first document after it was started and submitted,
    with a start of the second document in between. *)
Lemma GetState_most_recent_witness :
  GetState
    (run Workflow.newTestFSM
       [OpStart Workflow.doc1 (Workflow.st "draft") "alice" 1%Z;
        OpTrigger Workflow.doc1 (Workflow.ev "submit") "alice" 2%Z;
        OpStart Workflow.doc2 (Workflow.st "draft") "bob" 3%Z])
    Workflow.doc1 = Ok (Workflow.st "submitted") /\
  forall et,
    In et (logOf (run Workflow.newTestFSM
                    [OpStart Workflow.doc1 (Workflow.st "draft") "alice" 1%Z;
                     OpTrigger Workflow.doc1 (Workflow.ev "submit") "alice" 2%Z;
                     OpStart Workflow.doc2 (Workflow.st "draft") "bob" 3%Z])) ->
    ET_Entity et = Workflow.doc1 ->
    (CreatedAt (ET_Transition et) <= 2)%Z.
Proof.
  destruct (proj1 (proj2 (proj2
              (GetState_most_recent
                 (run Workflow.newTestFSM
                    [OpStart Workflow.doc1 (Workflow.st "draft") "alice" 1%Z;
                     OpTrigger Workflow.doc1 (Workflow.ev "submit") "alice" 2%Z;
                     OpStart Workflow.doc2 (Workflow.st "draft") "bob" 3%Z])
                 Workflow.doc1)))
              [genesisRecord Workflow.doc1 (Workflow.st "draft") "alice" 1%Z]
              (moveRecord Workflow.doc1 (Workflow.st "draft") (Workflow.ev "submit")
                 (Workflow.st "submitted") "alice" 2%Z)
              [genesisRecord Workflow.doc2 (Workflow.st "draft") "bob" 3%Z])
    as (Hstate & Hmax).
  - reflexivity.
  - reflexivity.
  - constructor; [discriminate | constructor].
  - split; [exact Hstate|]. apply Hmax.
    repeat constructor; simpl; lia.
Defined.

(** C5 as stated fails: a document started at instant 5 and submitted at
    instant 3, the clock having been set back in between.  [GetState]
    returns the target of the record stamped 3, while the record with the
    most recent timestamp is the one stamped 5, whose target is another
    state. *)
Lemma GetState_not_latest_stamp :
  let f := run Workflow.newTestFSM
             [OpStart Workflow.doc1 (Workflow.st "draft") "alice" 5%Z;
              OpTrigger Workflow.doc1 (Workflow.ev "submit") "alice" 3%Z] in
  let r5 := genesisRecord Workflow.doc1 (Workflow.st "draft") "alice" 5%Z in
  let r3 := moveRecord Workflow.doc1 (Workflow.st "draft") (Workflow.ev "submit")
              (Workflow.st "submitted") "alice" 3%Z in
  logOf f = [r5; r3] /\
  FSM_GetTransitions f Workflow.doc1 = Ok [r5; r3] /\
  (CreatedAt (ET_Transition r3) < CreatedAt (ET_Transition r5))%Z /\
  GetState f Workflow.doc1 = Ok (To (ET_Transition r3)) /\
  GetState f Workflow.doc1 <> Ok (To (ET_Transition r5)).
Proof.
  cbv zeta. split; [reflexivity|]. split; [reflexivity|].
  split; [reflexivity|]. split; [reflexivity | discriminate].
Qed.

(** C10.  For an entity without any record in the store, [GetTransitions]
    succeeds with the empty sequence, while [GetState] fails with
    [ErrEntityNotFound] and [Trigger] fails with an error that wraps it. *)
Theorem GetTransitions_unknown_entity (f : FSM MemoryStorage.t) (entity : Entity) :
  (forall et, In et (logOf f) -> ET_Entity et <> entity) ->
  FSM_GetTransitions f entity = Ok [] /\
  GetState f entity = Err ErrEntityNotFound /\
  forall event createdBy now,
    exists err,
      Trigger f entity event createdBy now = (Some err, f) /\
      errors_Is err ErrEntityNotFound = true.
Proof.
  intros Habs. pose proof (filter_absent f entity Habs) as E.
  split; [| split].
  - unfold FSM_GetTransitions; simpl. unfold MemoryStorage.GetTransitions.
    fold (logOf f). rewrite E. reflexivity.
  - apply filter_nil_GetState. assumption.
  - intros event createdBy now. rewrite Trigger_eq.
    rewrite (filter_nil_GetState f entity E).
    eexists. split; [reflexivity | apply errors_Is_wrapped].
Qed.

(** An instance: the second document
    while only the first has been started. *)
Lemma GetTransitions_unknown_entity_witness :
  FSM_GetTransitions
    (snd (Start Workflow.newTestFSM Workflow.doc1 (Workflow.st "draft") "alice" 1%Z))
    Workflow.doc2 = Ok [].
Proof.
  apply (GetTransitions_unknown_entity
           (snd (Start Workflow.newTestFSM Workflow.doc1 (Workflow.st "draft")
                   "alice" 1%Z)) Workflow.doc2).
  intros et [<- | []]. simpl. discriminate.
Defined.




(** ** Isolation of entities *)

(** C9.  For distinct entities [a] and [b]: [Start] and [Trigger] on [a]
    leave the history and the current state of [b] as they were; the
    history of [a] holds records of [a] only; and saving a record of [b]
    changes neither the history nor the current state of [a]. *)
Theorem entity_isolation (f : FSM MemoryStorage.t) (a b : Entity) :
  a <> b ->
  (forall initialState createdBy now,
     FSM_GetTransitions (snd (Start f a initialState createdBy now)) b =
     FSM_GetTransitions f b /\
     GetState (snd (Start f a initialState createdBy now)) b = GetState f b) /\
  (forall event createdBy now,
     FSM_GetTransitions (snd (Trigger f a event createdBy now)) b =
     FSM_GetTransitions f b /\
     GetState (snd (Trigger f a event createdBy now)) b = GetState f b) /\
  (forall h,
     FSM_GetTransitions f a = Ok h -> Forall (fun et => ET_Entity et = a) h) /\
  (forall et,
     ET_Entity et = b ->
     FSM_GetTransitions (withStorage f (snd (SaveTransition et (storage f)))) a =
     FSM_GetTransitions f a /\
     GetState (withStorage f (snd (SaveTransition et (storage f)))) a =
     GetState f a).
Proof.
  intros Hab.
  assert (Hstep : forall o, opEntity o = a ->
            FSM_GetTransitions (step f o) b = FSM_GetTransitions f b /\
            GetState (step f o) b = GetState f b).
  { intros o Ho.
    destruct (step_log f o) as [-> | (et & -> & Hent & _)]; [auto|].
    apply (appended_other f et a b Hab). congruence. }
  split; [| split; [| split]].
  - intros initialState createdBy now.
    apply (Hstep (OpStart a initialState createdBy now)). reflexivity.
  - intros event createdBy now.
    apply (Hstep (OpTrigger a event createdBy now)). reflexivity.
  - intros h E. injection E as <-. apply GetTransitions_own.
  - intros et Het.
    apply (appended_other f et b a); [congruence | assumption].
Qed.

(** An instance: starting the first document does not
    bring the second one into being. *)
Lemma entity_isolation_witness :
  Workflow.doc1 <> Workflow.doc2 /\
  GetState
    (snd (Start Workflow.newTestFSM Workflow.doc1 (Workflow.st "draft") "alice" 1%Z))
    Workflow.doc2 = GetState Workflow.newTestFSM Workflow.doc2.
Proof.
  assert (Hd : Workflow.doc1 <> Workflow.doc2) by discriminate.
  split; [exact Hd|].
  exact (proj2 (proj1 (entity_isolation Workflow.newTestFSM
                         Workflow.doc1 Workflow.doc2 Hd)
                  (Workflow.st "draft") "alice" 1%Z)).
Defined.

(** ** Trigger and its probe *)

Section Probe.

Context {S : Type} `{Storage S}.

Lemma New_Ok_inv (sts : list State) (evs : list Event) (ts : list Transition)
  (st : option S) (f : FSM S) :
  New sts evs ts st = Ok f ->
  Forall (wellReferenced (states f) (events f)) (transitions f).
Proof.
  unfold New.
  destruct (Nat.eqb (length sts) 0); [discriminate|].
  destruct (Nat.eqb (length evs) 0); [discriminate|].
  destruct (Nat.eqb (length ts) 0); [discriminate|].
  destruct st as [s|]; [|discriminate].
  destruct (validateTransitions ts sts evs) eqn:V; [discriminate|].
  intros E. injection E as <-. simpl. apply validateTransitions_None. assumption.
Qed.

Lemma undeclared_event_unanswered (f : FSM S) (from : State) (event : Event) :
  Forall (wellReferenced (states f) (events f)) (transitions f) ->
  ~ In event (events f) ->
  Forall (fun u => ~ answers from event u) (transitions f).
Proof.
  intros F Hev. rewrite Forall_forall in *. intros u Hu [_ Hans].
  destruct (F u Hu) as (_ & _ & He). congruence.
Qed.

(** C8.  [CanTrigger] returns a boolean and no error.  It is true exactly
    when the entity has a current state and the lookup from that state on
    the event succeeds.  It is false when reading the current state fails
    (entity not found, or any other storage error), when no declared
    transition answers the current state and the event, and, on an engine
    built by [New], when the event is not declared. *)
Theorem CanTrigger_probe (f : FSM S) (entity : Entity) (event : Event) :
  (CanTrigger f entity event = true <->
   exists s to, GetState f entity = Ok s /\ findNextState f s event = Ok to) /\
  (forall err, GetState f entity = Err err -> CanTrigger f entity event = false) /\
  (forall s,
     GetState f entity = Ok s ->
     Forall (fun u => ~ answers s event u) (transitions f) ->
     CanTrigger f entity event = false) /\
  (forall sts evs ts st,
     New sts evs ts st = Ok f -> ~ In event (events f) ->
     CanTrigger f entity event = false).
Proof.
  assert (Hno : forall s,
            GetState f entity = Ok s ->
            Forall (fun u => ~ answers s event u) (transitions f) ->
            CanTrigger f entity event = false).
  { intros s Hs F. unfold CanTrigger, GetState in *. rewrite Hs.
    destruct (findNextState f s event) as [to|e] eqn:E; [|reflexivity].
    apply findNextState_loop_Ok in E as (b & t & a & Eq & _ & Ht & _).
    rewrite Forall_forall in F. destruct (F t); [|assumption].
    rewrite Eq. apply in_or_app. right. left. reflexivity. }
  split; [| split; [| split]].
  - unfold CanTrigger, GetState.
    destruct (GetCurrentState entity (storage f)) as [s|e].
    + destruct (findNextState f s event) as [to|e] eqn:E.
      * split; [intros _; exists s, to; auto | reflexivity].
      * split; [discriminate | intros (s' & to & Es & Eto)].
        injection Es as <-. congruence.
    + split; [discriminate | intros (s' & to & Es & _); discriminate].
  - intros err E. unfold CanTrigger, GetState in *. rewrite E. reflexivity.
  - exact Hno.
  - intros sts evs ts st HN Hev.
    destruct (GetState f entity) as [s|e] eqn:Es.
    + apply (Hno s); [reflexivity|].
      apply undeclared_event_unanswered; [|assumption].
      eapply New_Ok_inv; eassumption.
    + unfold CanTrigger, GetState in *. rewrite Es. reflexivity.
Qed.

End Probe.

(** An instance: an undeclared event on a started
    document. *)
Lemma CanTrigger_probe_witness :
  CanTrigger
    (snd (Start Workflow.newTestFSM Workflow.doc1 (Workflow.st "draft") "alice" 1%Z))
    Workflow.doc1 (Workflow.ev "archive") = false.
Proof.
  apply (proj2 (proj2 (proj2
           (CanTrigger_probe
              (snd (Start Workflow.newTestFSM Workflow.doc1 (Workflow.st "draft")
                      "alice" 1%Z))
              Workflow.doc1 (Workflow.ev "archive"))))
           Workflow.testStates Workflow.testEvents Workflow.testTransitions
           (Some {| MemoryStorage.transitions :=
                      [genesisRecord Workflow.doc1 (Workflow.st "draft") "alice" 1%Z] |})).
  - reflexivity.
  - simpl. intros [E | [E | [E | [E | [E | []]]]]]; discriminate.
Defined.

(** C1, as the code has it.  On an engine built by [New], for a declared
    transition [t] and an entity whose current state is [From t], [Trigger]
    on the event of [t] succeeds and appends one record; the new current
    state is the target of the earliest declaration for that state and
    event, which is [To t] when [t] is that earliest declaration. *)
Theorem Trigger_declared (sts : list State) (evs : list Event)
  (ts : list Transition) (st : option MemoryStorage.t)
  (f : FSM MemoryStorage.t) (t : Transition) (entity : Entity)
  (createdBy : string) (now : Z) :
  New sts evs ts st = Ok f ->
  In t (transitions f) ->
  GetState f entity = Ok (From t) ->
  exists first before after,
    transitions f = before ++ first :: after /\
    Forall (fun u => ~ answers (From t) (Transition_Event t) u) before /\
    answers (From t) (Transition_Event t) first /\
    Trigger f entity (Transition_Event t) createdBy now =
    (None, appended f (moveRecord entity (From t) (Transition_Event t)
                         (To first) createdBy now)) /\
    GetState (snd (Trigger f entity (Transition_Event t) createdBy now)) entity =
    Ok (To first) /\
    ((exists before' after',
        transitions f = before' ++ t :: after' /\
        Forall (fun u => ~ answers (From t) (Transition_Event t) u) before') ->
     To first = To t).
Proof.
  intros HN Hin Hcur.
  pose proof (New_Ok_inv _ _ _ _ _ HN) as F.
  assert (Hev : In (Transition_Event t) (events f)).
  { rewrite Forall_forall in F. apply (F t Hin). }
  destruct (findNextState f (From t) (Transition_Event t)) as [to|e] eqn:E.
  - pose proof E as E'.
    apply findNextState_loop_Ok in E' as (b & first & a & Eq & Hb & Hans & <-).
    exists first, b, a.
    assert (HT : Trigger f entity (Transition_Event t) createdBy now =
                 (None, appended f (moveRecord entity (From t) (Transition_Event t)
                                      (To first) createdBy now))).
    { rewrite Trigger_eq, Hcur. apply validateEvent_None in Hev. rewrite Hev, E.
      reflexivity. }
    repeat (split; [assumption|]).
    split.
    + rewrite HT. simpl snd. rewrite GetState_appended.
      unfold moveRecord at 1.
      rewrite (sameEntity_refl (mkEntityTransition entity _)). reflexivity.
    + intros (b' & a' & Eq' & Hb').
      assert (E2 : findNextState f (From t) (Transition_Event t) = Ok (To t)).
      { apply findNextState_loop_Ok. exists b', t, a'.
        split; [assumption|]. split; [assumption|].
        split; [split; reflexivity | reflexivity]. }
      congruence.
  - apply findNextState_loop_Err in E as [Fno _].
    rewrite Forall_forall in Fno. destruct (Fno t Hin). split; reflexivity.
Qed.

(** An instance: submitting a draft. *)
Lemma Trigger_declared_witness :
  GetState
    (snd (Trigger
            (snd (Start Workflow.newTestFSM Workflow.doc1 (Workflow.st "draft")
                    "alice" 1%Z))
            Workflow.doc1 (Workflow.ev "submit") "alice" 2%Z))
    Workflow.doc1 = Ok (Workflow.st "submitted").
Proof.
  destruct (Trigger_declared
              Workflow.testStates Workflow.testEvents Workflow.testTransitions
              (Some {| MemoryStorage.transitions :=
                         [genesisRecord Workflow.doc1 (Workflow.st "draft")
                            "alice" 1%Z] |})
              (snd (Start Workflow.newTestFSM Workflow.doc1 (Workflow.st "draft")
                      "alice" 1%Z))
              (Workflow.tr "draft" "submit" "submitted")
              Workflow.doc1 "alice" 2%Z)
    as (first & b & a & _ & _ & _ & _ & Hst & Hfirst).
  - reflexivity.
  - simpl. tauto.
  - reflexivity.
  - rewrite Hfirst in Hst; [exact Hst|].
    exists [], (tl Workflow.testTransitions). split; [reflexivity | constructor].
Defined.

(** C1 as stated fails: where [draft -submit-> submitted] is declared
    before [draft -submit-> approved], the second declaration is a declared
    transition whose [From] is the current state, and [Trigger] does not lead
    to its target. *)
Lemma Trigger_later_duplicate :
  let t := Workflow.tr "draft" "submit" "approved" in
  let f := snd (Start Workflow.dupFSM Workflow.doc1 (Workflow.st "draft")
                  "alice" 1%Z) in
  let f' := snd (Trigger f Workflow.doc1 (Transition_Event t) "alice" 2%Z) in
  New Workflow.testStates Workflow.testEvents Workflow.dupTransitions
    (Some MemoryStorage.NewMemoryStorage) = Ok Workflow.dupFSM /\
  In t (transitions f) /\
  GetState f Workflow.doc1 = Ok (From t) /\
  GetState f' Workflow.doc1 = Ok (Workflow.st "submitted") /\
  GetState f' Workflow.doc1 <> Ok (To t).
Proof.
  cbv zeta. split; [reflexivity|].
  split; [simpl; tauto|].
  split; [reflexivity|].
  split; [reflexivity | discriminate].
Qed.

(** C4, as the code has it.  When no declared transition answers the
    entity's current state and the event, [Trigger] fails and returns the
    engine with its store untouched, so the log, the entity's history and
    its current state stay as they were.  The error is
    [ErrInvalidTransition] when the event is declared, and
    [ErrInvalidEvent], not [ErrInvalidTransition], when it is not. *)
Theorem Trigger_unanswered (f : FSM MemoryStorage.t) (entity : Entity)
  (state : State) (event : Event) (createdBy : string) (now : Z) :
  GetState f entity = Ok state ->
  Forall (fun u => ~ answers state event u) (transitions f) ->
  exists err,
    Trigger f entity event createdBy now = (Some err, f) /\
    (In event (events f) -> errors_Is err ErrInvalidTransition = true) /\
    (~ In event (events f) ->
     errors_Is err ErrInvalidEvent = true /\
     errors_Is err ErrInvalidTransition = false) /\
    logOf (snd (Trigger f entity event createdBy now)) = logOf f /\
    FSM_GetTransitions (snd (Trigger f entity event createdBy now)) entity =
    FSM_GetTransitions f entity /\
    GetState (snd (Trigger f entity event createdBy now)) entity = Ok state.
Proof.
  intros Hcur Fno. rewrite Trigger_eq, Hcur.
  destruct (validateEvent_cases event (events f)) as [[Hev ->] | [Hev ->]].
  - destruct (findNextState f state event) as [to|e] eqn:E.
    + apply findNextState_loop_Ok in E as (b & t & a & Eq & _ & Ht & _).
      rewrite Forall_forall in Fno. destruct (Fno t); [|assumption].
      rewrite Eq. apply in_or_app. right. left. reflexivity.
    + apply findNextState_loop_Err in E as [_ ->].
      eexists. split; [reflexivity|].
      split; [intros _; apply errors_Is_wrapped|].
      split; [intros Hn; contradiction|].
      simpl snd. auto.
  - eexists. split; [reflexivity|].
    split; [intros Hin; contradiction|].
    split; [intros _; split; [apply errors_Is_wrapped | reflexivity]|].
    simpl snd. auto.
Qed.

(** An instance: approving a draft. *)
Lemma Trigger_unanswered_witness :
  exists err,
    Trigger
      (snd (Start Workflow.newTestFSM Workflow.doc1 (Workflow.st "draft")
              "alice" 1%Z))
      Workflow.doc1 (Workflow.ev "approve") "bob" 2%Z =
    (Some err,
     snd (Start Workflow.newTestFSM Workflow.doc1 (Workflow.st "draft")
            "alice" 1%Z)) /\
    errors_Is err ErrInvalidTransition = true.
Proof.
  destruct (Trigger_unanswered
              (snd (Start Workflow.newTestFSM Workflow.doc1 (Workflow.st "draft")
                      "alice" 1%Z))
              Workflow.doc1 (Workflow.st "draft") (Workflow.ev "approve")
              "bob" 2%Z) as (err & HT & Hdecl & _).
  - reflexivity.
  - repeat constructor; intros [E1 E2]; discriminate.
  - exists err. split; [exact HT|]. apply Hdecl. simpl. tauto.
Defined.

(** C4 as stated fails: for an undeclared event, which no declared
    transition answers, [Trigger] on a started document fails with an error
    that is [ErrInvalidEvent] and is not [ErrInvalidTransition]. *)
Lemma Trigger_undeclared_event :
  let f := snd (Start Workflow.newTestFSM Workflow.doc1 (Workflow.st "draft")
                  "alice" 1%Z) in
  GetState f Workflow.doc1 = Ok (Workflow.st "draft") /\
  Forall (fun u => ~ answers (Workflow.st "draft") (Workflow.ev "archive") u)
    (transitions f) /\
  exists err,
    fst (Trigger f Workflow.doc1 (Workflow.ev "archive") "alice" 2%Z) = Some err /\
    errors_Is err ErrInvalidEvent = true /\
    errors_Is err ErrInvalidTransition = false.
Proof.
  cbv zeta. split; [reflexivity|].
  split; [repeat constructor; intros [E1 E2]; discriminate|].
  eexists. split; [reflexivity|]. split; reflexivity.
Qed.

(** ** The in-memory store: saving and reading back *)

(** X1.  [SaveTransition] on the in-memory store never fails.  Afterwards
    the current state of the record's entity is the record's [To] state and
    its history is the former history followed by the record.  A new store
    knows no entity. *)
Theorem MemoryStorage_save_read (m : MemoryStorage.t) (et : EntityTransition) :
  fst (MemoryStorage.SaveTransition et m) = None /\
  MemoryStorage.GetCurrentState (ET_Entity et)
    (snd (MemoryStorage.SaveTransition et m)) = Ok (To (ET_Transition et)) /\
  (exists h,
     MemoryStorage.GetTransitions (ET_Entity et) m = Ok h /\
     MemoryStorage.GetTransitions (ET_Entity et)
       (snd (MemoryStorage.SaveTransition et m)) = Ok (h ++ [et])) /\
  (forall entity,
     MemoryStorage.GetCurrentState entity MemoryStorage.NewMemoryStorage =
     Err ErrEntityNotFound /\
     MemoryStorage.GetTransitions entity MemoryStorage.NewMemoryStorage = Ok []).
Proof.
  split; [reflexivity|]. split; [| split].
  - unfold MemoryStorage.GetCurrentState, MemoryStorage.SaveTransition; simpl.
    rewrite scanBackward_snoc, sameEntity_refl. reflexivity.
  - eexists. split; [reflexivity|].
    unfold MemoryStorage.GetTransitions, MemoryStorage.SaveTransition; simpl.
    rewrite filter_snoc, sameEntity_refl. reflexivity.
  - intros entity. split; reflexivity.
Qed.

(** ** Available events *)

Lemma findNextState_loop_some (ts : list Transition) (from : State) (event : Event) :
  (exists to, findNextState_loop ts from event = Ok to) <->
  exists t, In t ts /\ answers from event t.
Proof.
  split.
  - intros [to E]. apply findNextState_loop_Ok in E as (b & t & a & -> & _ & Ht & _).
    exists t. split; [apply in_or_app; right; left; reflexivity | assumption].
  - intros (t & Hin & Ht).
    destruct (findNextState_loop ts from event) as [to|e] eqn:E; [eauto|].
    apply findNextState_loop_Err in E as [F _]. rewrite Forall_forall in F.
    destruct (F t Hin Ht).
Qed.

Lemma leaving_names (s : State) (ts : list Transition) :
  filter (fun t => State_Name (From t) =? State_Name s) ts = leaving s ts.
Proof.
  unfold leaving. apply filter_ext. intros t.
  destruct (State_eq_dec (From t) s) as [E|E].
  - rewrite E. apply String.eqb_refl.
  - destruct (State_Name (From t) =? State_Name s) eqn:N; [|reflexivity].
    apply String.eqb_eq, State_Name_inj in N. contradiction.
Qed.

Lemma wrapError_neq (format : string) (args : list string) (err : error) :
  wrapError format args err <> err.
Proof.
  revert format args. induction err as [msg | fmt' args' inner IH];
    intros format args; [discriminate|].
  intros Eq. injection Eq as _ _ Eq. apply (IH _ _ Eq).
Qed.

Section Backends.

Context {S : Type} `{Storage S}.

Lemma CanTrigger_true (f : FSM S) (entity : Entity) (event : Event) (s : State) :
  GetState f entity = Ok s ->
  (CanTrigger f entity event = true <->
   exists t, In t (transitions f) /\ answers s event t).
Proof.
  intros Hs. rewrite <- findNextState_loop_some.
  unfold CanTrigger, GetState, findNextState in *. rewrite Hs.
  destruct (findNextState_loop (transitions f) s event) as [to|e].
  - split; [eauto | reflexivity].
  - split; [discriminate | intros [to E]; discriminate].
Qed.

Lemma GetAvailableEvents_CanTrigger_aux (f : FSM S) (entity : Entity) :
  (forall err,
     GetState f entity = Err err -> GetAvailableEvents f entity = Err err) /\
  (forall s,
     GetState f entity = Ok s ->
     exists evs,
       GetAvailableEvents f entity = Ok evs /\
       (forall event, In event evs <-> CanTrigger f entity event = true)).
Proof.
  split.
  - intros err E. unfold GetAvailableEvents, GetState in *. rewrite E. reflexivity.
  - intros s Hs. eexists. split.
    + unfold GetAvailableEvents, GetState in *. rewrite Hs. reflexivity.
    + intros event. rewrite (CanTrigger_true f entity event s Hs), in_map_iff.
      split.
      * intros (t & <- & Ht). apply filter_In in Ht as [Ht Hn].
        apply String.eqb_eq, State_Name_inj in Hn.
        exists t. split; [assumption | split; [assumption | reflexivity]].
      * intros (t & Ht & <- & <-). exists t. split; [reflexivity|].
        apply filter_In. split; [assumption | apply String.eqb_refl].
Qed.

(** X2.  [GetAvailableEvents] passes on the error of reading the current
    state as it is.  When the entity has a current state [s], it returns
    exactly the events of the declared transitions leaving [s], one entry
    per transition and in declaration order, repeated events included.  So
    an event is in the result exactly when some declared transition goes
    from [s] on it, which is exactly when [CanTrigger] answers true for
    it. *)
Theorem GetAvailableEvents_CanTrigger (f : FSM S) (entity : Entity) :
  (forall err,
     GetState f entity = Err err -> GetAvailableEvents f entity = Err err) /\
  (forall s,
     GetState f entity = Ok s ->
     exists evs,
       GetAvailableEvents f entity = Ok evs /\
       evs = map Transition_Event (leaving s (transitions f)) /\
       length evs = length (leaving s (transitions f)) /\
       (forall event,
          In event evs <->
          exists t, In t (transitions f) /\ From t = s /\ Transition_Event t = event) /\
       (forall event, In event evs <-> CanTrigger f entity event = true) /\
       (forall before t after,
          transitions f = before ++ t :: after -> From t = s ->
          evs = map Transition_Event (leaving s before) ++
                Transition_Event t :: map Transition_Event (leaving s after))).
Proof.
  split.
  - intros err E. unfold GetAvailableEvents, GetState in *. rewrite E. reflexivity.
  - intros s Hs.
    assert (Hin : forall event,
              In event (map Transition_Event (leaving s (transitions f))) <->
              exists t, In t (transitions f) /\ From t = s /\ Transition_Event t = event).
    { intros event. rewrite in_map_iff. unfold leaving. split.
      - intros (t & <- & Ht). apply filter_In in Ht as [Ht Hn].
        destruct (State_eq_dec (From t) s); [eauto | discriminate].
      - intros (t & Ht & <- & <-). exists t. split; [reflexivity|].
        apply filter_In. split; [assumption|].
        destruct (State_eq_dec (From t) (From t)); congruence. }
    exists (map Transition_Event (leaving s (transitions f))).
    split; [| split; [reflexivity | split; [apply length_map | split;
             [exact Hin | split]]]].
    + unfold GetAvailableEvents, GetState in *. rewrite Hs, leaving_names.
      reflexivity.
    + intros event. rewrite Hin, (CanTrigger_true f entity event s Hs).
      unfold answers. reflexivity.
    + intros before t after Eq <-. rewrite Eq. unfold leaving.
      rewrite filter_app, map_app. simpl.
      destruct (State_eq_dec (From t) (From t)); [reflexivity | congruence].
Qed.

(** X3.  Whatever the backend, when reading the current state fails with
    [err]: [Trigger] fails with an error that wraps [err] and hands back
    the engine with its store untouched, whatever the event; [GetState] and
    [GetAvailableEvents] return [err] itself; [CanTrigger] is false. *)
Theorem read_failure_propagates (f : FSM S) (entity : Entity) (err : error) :
  GetCurrentState entity (storage f) = Err err ->
  (forall event createdBy now,
     exists e,
       Trigger f entity event createdBy now = (Some e, f) /\
       errors_Is e err = true /\ e <> err) /\
  GetState f entity = Err err /\
  GetAvailableEvents f entity = Err err /\
  (forall event, CanTrigger f entity event = false).
Proof.
  intros E. split; [| split; [| split]].
  - intros event createdBy now. unfold Trigger. rewrite E.
    eexists. split; [reflexivity|].
    split; [apply errors_Is_wrapped | apply wrapError_neq].
  - exact E.
  - unfold GetAvailableEvents. rewrite E. reflexivity.
  - intros event. unfold CanTrigger. rewrite E. reflexivity.
Qed.

End Backends.

(** An instance: the events open to a draft where two declarations leave
    [draft] on [submit]. *)
Lemma GetAvailableEvents_CanTrigger_witness :
  GetAvailableEvents
    (snd (Start Workflow.dupFSM Workflow.doc1 (Workflow.st "draft") "alice" 1%Z))
    Workflow.doc1 = Ok [Workflow.ev "submit"; Workflow.ev "submit"] /\
  CanTrigger
    (snd (Start Workflow.dupFSM Workflow.doc1 (Workflow.st "draft") "alice" 1%Z))
    Workflow.doc1 (Workflow.ev "submit") = true.
Proof.
  destruct (proj2 (GetAvailableEvents_CanTrigger
                     (snd (Start Workflow.dupFSM Workflow.doc1
                             (Workflow.st "draft") "alice" 1%Z))
                     Workflow.doc1)
              (Workflow.st "draft")) as (evs & He & Hexact & _ & _ & Hc & _).
  - reflexivity.
  - split.
    + rewrite He, Hexact. reflexivity.
    + apply Hc. rewrite Hexact. left. reflexivity.
Defined.

(** An instance: a trigger on a document that was never started. *)
Lemma read_failure_propagates_witness :
  exists e,
    Trigger Workflow.newTestFSM Workflow.doc1 (Workflow.ev "submit") "alice" 1%Z =
    (Some e, Workflow.newTestFSM) /\
    errors_Is e ErrEntityNotFound = true.
Proof.
  assert (Hread : GetCurrentState Workflow.doc1 (storage Workflow.newTestFSM) =
                  Err ErrEntityNotFound) by reflexivity.
  destruct (proj1 (read_failure_propagates Workflow.newTestFSM Workflow.doc1
                     ErrEntityNotFound Hread)
              (Workflow.ev "submit") "alice" 1%Z) as (e & HT & HI & _).
  exists e. split; [exact HT | exact HI].
Defined.

(** ** Probe, dry run and trigger agree *)

(** X4.  On an engine built by [New] over the in-memory store, [Trigger]
    succeeds exactly when [CanTrigger] answers true, and exactly when the
    event is among the available events; a failed [Trigger] hands back the
    engine with its store untouched. *)
Theorem CanTrigger_iff_Trigger (sts : list State) (evs : list Event)
  (ts : list Transition) (st : option MemoryStorage.t)
  (f : FSM MemoryStorage.t) (entity : Entity) (event : Event)
  (createdBy : string) (now : Z) :
  New sts evs ts st = Ok f ->
  (fst (Trigger f entity event createdBy now) = None <->
   CanTrigger f entity event = true) /\
  (fst (Trigger f entity event createdBy now) = None <->
   exists available,
     GetAvailableEvents f entity = Ok available /\ In event available) /\
  (fst (Trigger f entity event createdBy now) <> None ->
   snd (Trigger f entity event createdBy now) = f).
Proof.
  intros HN. pose proof (New_Ok_inv _ _ _ _ _ HN) as F.
  assert (HT : fst (Trigger f entity event createdBy now) = None <->
               CanTrigger f entity event = true).
  { rewrite Trigger_eq. unfold CanTrigger. fold (GetState f entity).
    destruct (GetState f entity) as [s|e] eqn:Es; [|simpl; split; discriminate].
    destruct (validateEvent_cases event (events f)) as [[Hev ->] | [Hev ->]].
    - destruct (findNextState f s event); simpl; split; congruence.
    - pose proof (undeclared_event_unanswered f s event F Hev) as Fno.
      destruct (findNextState f s event) as [to|e] eqn:E; simpl;
        [| split; discriminate].
      apply findNextState_loop_Ok in E as (b & t & a & Eq & _ & Ht & _).
      rewrite Forall_forall in Fno. destruct (Fno t); [|assumption].
      rewrite Eq. apply in_or_app. right. left. reflexivity. }
  split; [exact HT | split].
  - rewrite HT.
    destruct (GetState f entity) as [s|e] eqn:Es.
    + destruct (proj2 (GetAvailableEvents_CanTrigger_aux f entity) s Es)
        as (available & Ha & Hc).
      rewrite Ha. split.
      * intros C. exists available. split; [reflexivity | apply Hc; assumption].
      * intros (a' & Ea & Hin). injection Ea as <-. apply Hc. assumption.
    + unfold CanTrigger, GetAvailableEvents, GetState in *. rewrite Es.
      split; [discriminate | intros (a' & Ea & _); discriminate].
  - rewrite Trigger_eq.
    destruct (GetState f entity) as [s|e]; [|reflexivity].
    destruct (validateEvent event (events f)); [reflexivity|].
    destruct (findNextState f s event); [|reflexivity].
    simpl. intros C. contradiction C. reflexivity.
Qed.

(** An instance: submitting is open to a draft, and the trigger succeeds. *)
Lemma CanTrigger_iff_Trigger_witness :
  fst (Trigger
         (snd (Start Workflow.newTestFSM Workflow.doc1 (Workflow.st "draft")
                 "alice" 1%Z))
         Workflow.doc1 (Workflow.ev "submit") "alice" 2%Z) = None <->
  CanTrigger
    (snd (Start Workflow.newTestFSM Workflow.doc1 (Workflow.st "draft")
            "alice" 1%Z))
    Workflow.doc1 (Workflow.ev "submit") = true.
Proof.
  apply (CanTrigger_iff_Trigger
           Workflow.testStates Workflow.testEvents Workflow.testTransitions
           (Some {| MemoryStorage.transitions :=
                      [genesisRecord Workflow.doc1 (Workflow.st "draft")
                         "alice" 1%Z] |})).
  reflexivity.
Defined.

(** X5.  [GetNextState] is a faithful dry run.  On an engine built by [New]
    over the in-memory store, for an entity whose current state is [s]:
    when [GetNextState] gives [to] for [s] and the event, [Trigger]
    succeeds, appends one record from [s] to [to], and the current state
    becomes [to]; when [GetNextState] fails, so does [Trigger], and the
    store is untouched. *)
Theorem GetNextState_predicts_Trigger (sts : list State) (evs : list Event)
  (ts : list Transition) (st : option MemoryStorage.t)
  (f : FSM MemoryStorage.t) (entity : Entity) (s : State) (event : Event)
  (createdBy : string) (now : Z) :
  New sts evs ts st = Ok f ->
  GetState f entity = Ok s ->
  match GetNextState f s event with
  | Ok to =>
      Trigger f entity event createdBy now =
      (None, appended f (moveRecord entity s event to createdBy now)) /\
      GetState (snd (Trigger f entity event createdBy now)) entity = Ok to /\
      In to (states f)
  | Err _ =>
      exists err, Trigger f entity event createdBy now = (Some err, f)
  end.
Proof.
  intros HN Hs. pose proof (New_Ok_inv _ _ _ _ _ HN) as F.
  unfold GetNextState. rewrite Trigger_eq, Hs.
  destruct (findNextState f s event) as [to|e] eqn:E.
  - apply findNextState_loop_Ok in E as (b & t & a & Eq & _ & [_ Hev] & <-).
    assert (Hin : In t (transitions f))
      by (rewrite Eq; apply in_or_app; right; left; reflexivity).
    rewrite Forall_forall in F. destruct (F t Hin) as (_ & Hto & Hdecl).
    rewrite Hev in Hdecl. apply validateEvent_None in Hdecl. rewrite Hdecl.
    split; [reflexivity|]. split; [|assumption].
    simpl snd. rewrite GetState_appended. unfold moveRecord at 1.
    rewrite (sameEntity_refl (mkEntityTransition entity _)). reflexivity.
  - destruct (validateEvent event (events f)); eauto.
Qed.

(** An instance: the dry run from [submitted] on [reject]. *)
Lemma GetNextState_predicts_Trigger_witness :
  match GetNextState
          (snd (Start Workflow.newTestFSM Workflow.doc1 (Workflow.st "submitted")
                  "alice" 1%Z))
          (Workflow.st "submitted") (Workflow.ev "reject") with
  | Ok to =>
      GetState
        (snd (Trigger
                (snd (Start Workflow.newTestFSM Workflow.doc1
                        (Workflow.st "submitted") "alice" 1%Z))
                Workflow.doc1 (Workflow.ev "reject") "bob" 2%Z))
        Workflow.doc1 = Ok to
  | Err _ => True
  end.
Proof.
  pose proof (GetNextState_predicts_Trigger
                Workflow.testStates Workflow.testEvents Workflow.testTransitions
                (Some {| MemoryStorage.transitions :=
                           [genesisRecord Workflow.doc1 (Workflow.st "submitted")
                              "alice" 1%Z] |})
                (snd (Start Workflow.newTestFSM Workflow.doc1
                        (Workflow.st "submitted") "alice" 1%Z))
                Workflow.doc1 (Workflow.st "submitted") (Workflow.ev "reject")
                "bob" 2%Z eq_refl eq_refl) as P.
  destruct (GetNextState _ _ _); [exact (proj1 (proj2 P)) | exact I].
Defined.

(** ** Which error construction reports *)

Lemma validateTransitions_skip (before rest : list Transition) (sts : list State)
  (evs : list Event) :
  Forall (wellReferenced sts evs) before ->
  validateTransitions (before ++ rest) sts evs = validateTransitions rest sts evs.
Proof.
  induction 1 as [|t before (Hf & Ht & He) _ IH]; simpl; [reflexivity|].
  apply validateState_None in Hf, Ht. apply validateEvent_None in He.
  rewrite Hf, Ht, He. exact IH.
Qed.

Section ConstructionErrors.

Context {S : Type} `{Storage S}.

(** X6.  [New] reports the first failing check, in the order: no states, no
    events, no transitions, nil storage, then the declared transitions in
    declaration order, and within a transition its [From] state, then its
    [To] state, then its event.  For a transition the error wraps
    [ErrInvalidState], respectively [ErrInvalidEvent], and carries the
    offending name. *)
Theorem New_error_selection (sts : list State) (evs : list Event)
  (ts : list Transition) (st : option S) :
  (sts = [] -> New sts evs ts st = Err (errorString "no states defined")) /\
  (sts <> [] -> evs = [] ->
   New sts evs ts st = Err (errorString "no events defined")) /\
  (sts <> [] -> evs <> [] -> ts = [] ->
   New sts evs ts st = Err (errorString "no transitions defined")) /\
  (sts <> [] -> evs <> [] -> ts <> [] -> st = None ->
   New sts evs ts st = Err (errorString "storage cannot be nil")) /\
  (forall s before t after,
     sts <> [] -> evs <> [] -> st = Some s ->
     ts = before ++ t :: after ->
     Forall (wellReferenced sts evs) before ->
     (~ In (From t) sts ->
      exists err,
        New sts evs ts st = Err err /\
        err = wrapError "invalid from state in transition: %w" []
                (wrapError "%w: state %q is not valid" [State_Name (From t)]
                   ErrInvalidState) /\
        errors_Is err ErrInvalidState = true) /\
     (In (From t) sts -> ~ In (To t) sts ->
      exists err,
        New sts evs ts st = Err err /\
        err = wrapError "invalid to state in transition: %w" []
                (wrapError "%w: state %q is not valid" [State_Name (To t)]
                   ErrInvalidState) /\
        errors_Is err ErrInvalidState = true) /\
     (In (From t) sts -> In (To t) sts -> ~ In (Transition_Event t) evs ->
      exists err,
        New sts evs ts st = Err err /\
        err = wrapError "invalid event in transition: %w" []
                (wrapError "%w: event %q is not valid"
                   [Event_Name (Transition_Event t)] ErrInvalidEvent) /\
        errors_Is err ErrInvalidEvent = true)).
Proof.
  split; [intros ->; reflexivity|].
  split; [intros Hs ->; destruct sts; [contradiction Hs|]; reflexivity|].
  split; [intros Hs He ->; destruct sts; [contradiction Hs; reflexivity|];
          destruct evs; [contradiction He|]; reflexivity|].
  split; [intros Hs He Ht ->; destruct sts; [contradiction Hs; reflexivity|];
          destruct evs; [contradiction He; reflexivity|];
          destruct ts; [contradiction Ht|]; reflexivity|].
  intros s before t after Hs He -> -> F.
  assert (HN : New sts evs (before ++ t :: after) (Some s) =
               match validateTransitions (t :: after) sts evs with
               | Some err => Err err
               | None => Ok {| states := sts; events := evs;
                               transitions := before ++ t :: after;
                               storage := s |}
               end).
  { unfold New. rewrite (validateTransitions_skip before (t :: after) sts evs F).
    destruct sts; [contradiction Hs; reflexivity|].
    destruct evs; [contradiction He; reflexivity|].
    destruct before; reflexivity. }
  rewrite HN. cbn [validateTransitions].
  destruct (validateState_cases (From t) sts) as [[Hf ->] | [Hf ->]].
  - split; [intros C; contradiction|].
    destruct (validateState_cases (To t) sts) as [[Ht ->] | [Ht ->]].
    + split; [intros _ C; contradiction|]. intros _ _ Hev.
      destruct (validateEvent_cases (Transition_Event t) evs) as [[Hi _] | [_ ->]];
        [contradiction|].
      eexists. split; [reflexivity|]. split; reflexivity.
    + split; [| intros _ C; contradiction]. intros _ _.
      eexists. split; [reflexivity|]. split; reflexivity.
  - split; [| split; intros C; contradiction]. intros _.
    eexists. split; [reflexivity|]. split; reflexivity.
Qed.

End ConstructionErrors.

(** An instance: a workflow whose second declaration leaves a declared
    state for an undeclared one. *)
Lemma New_error_selection_witness :
  exists err,
    New Workflow.testStates Workflow.testEvents
      [Workflow.tr "draft" "submit" "submitted";
       Workflow.tr "submitted" "bogus" "archived"]
      (Some MemoryStorage.NewMemoryStorage) = Err err /\
    errors_Is err ErrInvalidState = true.
Proof.
  destruct (proj2 (proj2 (proj2 (proj2
              (New_error_selection Workflow.testStates Workflow.testEvents
                 [Workflow.tr "draft" "submit" "submitted";
                  Workflow.tr "submitted" "bogus" "archived"]
                 (Some MemoryStorage.NewMemoryStorage)))))
              MemoryStorage.NewMemoryStorage
              [Workflow.tr "draft" "submit" "submitted"]
              (Workflow.tr "submitted" "bogus" "archived") [])
    as (_ & Hto & _).
  - discriminate.
  - discriminate.
  - reflexivity.
  - reflexivity.
  - repeat constructor; simpl; tauto.
  - destruct Hto as (err & HN & _ & HI).
    + simpl. tauto.
    + simpl. intros [E | [E | [E | [E | [E | []]]]]]; discriminate.
    + exists err. split; [exact HN | exact HI].
Defined.

(** ** What runs keep *)

Lemma withStorage_definition (f : FSM MemoryStorage.t) (et : EntityTransition) :
  states (appended f et) = states f /\
  events (appended f et) = events f /\
  transitions (appended f et) = transitions f.
Proof. repeat split. Qed.

(** The record a call appends, if any: of the call's entity and instant,
    and either a start record for a declared state or a move out of the
    entity's current state along the lookup. *)
Lemma step_shape (f : FSM MemoryStorage.t) (o : Op) :
  step f o = f \/
  exists et,
    step f o = appended f et /\
    ET_Entity et = opEntity o /\
    CreatedAt (ET_Transition et) = opTime o /\
    ((From (ET_Transition et) = {| State_Name := "" |} /\
      Transition_Event (ET_Transition et) = {| Event_Name := "start" |} /\
      In (To (ET_Transition et)) (states f) /\
      exists createdBy,
        o = OpStart (opEntity o) (To (ET_Transition et)) createdBy (opTime o)) \/
     (GetState f (opEntity o) = Ok (From (ET_Transition et)) /\
      In (Transition_Event (ET_Transition et)) (events f) /\
      findNextState f (From (ET_Transition et))
        (Transition_Event (ET_Transition et)) = Ok (To (ET_Transition et)))).
Proof.
  destruct o as [entity initialState createdBy now | entity event createdBy now];
    cbn [step opEntity opTime].
  - rewrite Start_eq.
    destruct (validateState_cases initialState (states f)) as [[Hin ->] | [_ ->]];
      [|auto].
    right. exists (genesisRecord entity initialState createdBy now).
    simpl. repeat (split; [reflexivity|]). left.
    repeat (split; [reflexivity || assumption|]). exists createdBy. reflexivity.
  - rewrite Trigger_eq.
    destruct (GetState f entity) as [s|e] eqn:Ecur; [|auto].
    destruct (validateEvent_cases event (events f)) as [[Hev ->] | [_ ->]]; [|auto].
    destruct (findNextState f s event) as [to|e] eqn:E; [|auto].
    right. exists (moveRecord entity s event to createdBy now).
    simpl. repeat (split; [reflexivity|]). right. auto.
Qed.

Lemma run_definition (f : FSM MemoryStorage.t) (ops : list Op) :
  states (run f ops) = states f /\
  events (run f ops) = events f /\
  transitions (run f ops) = transitions f.
Proof.
  induction ops as [|o ops IH] using rev_ind; [repeat split|].
  rewrite run_snoc.
  destruct (step_shape (run f ops) o) as [-> | (et & -> & _)]; [exact IH|].
  destruct (withStorage_definition (run f ops) et) as (-> & -> & ->). exact IH.
Qed.

Lemma FSM_GetTransitions_logOf (f : FSM MemoryStorage.t) (entity : Entity) :
  FSM_GetTransitions f entity =
  Ok (filter (MemoryStorage.sameEntity entity) (logOf f)).
Proof. reflexivity. Qed.

(** X7.  The log is append-only and the workflow definition is fixed: after
    any run the log is the former log followed by at most one record per
    call, each of the entity and the clock reading of one of the calls; the
    history of every entity is its former history followed by further
    records; states, events and transitions of the engine are unchanged. *)
Theorem log_append_only (f : FSM MemoryStorage.t) (ops : list Op) :
  (exists suffix,
     logOf (run f ops) = logOf f ++ suffix /\
     length suffix <= length ops /\
     Forall (fun et => exists o, In o ops /\ ET_Entity et = opEntity o /\
                                 CreatedAt (ET_Transition et) = opTime o) suffix /\
     forall entity,
       FSM_GetTransitions (run f ops) entity =
       Ok (filter (MemoryStorage.sameEntity entity) (logOf f) ++
           filter (MemoryStorage.sameEntity entity) suffix) /\
       FSM_GetTransitions f entity =
       Ok (filter (MemoryStorage.sameEntity entity) (logOf f))) /\
  states (run f ops) = states f /\
  events (run f ops) = events f /\
  transitions (run f ops) = transitions f.
Proof.
  split; [| apply run_definition].
  induction ops as [|o ops IH] using rev_ind.
  - exists []. unfold run; simpl. rewrite !app_nil_r.
    split; [reflexivity|]. split; [lia|]. split; [constructor|].
    intros entity. rewrite app_nil_r. split; reflexivity.
  - destruct IH as (suffix & Hlog & Hlen & Hfrom & _).
    assert (Hfrom' : Forall (fun et => exists o', In o' (ops ++ [o]) /\
                               ET_Entity et = opEntity o' /\
                               CreatedAt (ET_Transition et) = opTime o') suffix).
    { rewrite Forall_forall in *. intros et Het.
      destruct (Hfrom et Het) as (o' & Ho' & He).
      exists o'. split; [apply in_or_app; left; assumption | assumption]. }
    rewrite run_snoc, length_app. cbn [length].
    destruct (step_shape (run f ops) o) as [-> | (et & -> & Hent & Ht & _)].
    + exists suffix. split; [assumption|]. split; [lia|]. split; [assumption|].
      intros entity. rewrite !FSM_GetTransitions_logOf, Hlog, filter_app.
      split; reflexivity.
    + exists (suffix ++ [et]). rewrite logOf_appended, Hlog, app_assoc.
      split; [reflexivity|]. split; [rewrite length_app; simpl; lia|].
      split.
      * apply Forall_app. split; [assumption|]. repeat constructor.
        exists o. split; [apply in_or_app; right; left; reflexivity | auto].
      * intros entity.
        rewrite !FSM_GetTransitions_logOf, logOf_appended, Hlog, <- app_assoc,
          filter_app.
        split; reflexivity.
Qed.

Lemma step_exists (f : FSM MemoryStorage.t) (o : Op) (entity : Entity) :
  (exists s, GetState (step f o) entity = Ok s) <->
  (exists s, GetState f entity = Ok s) \/
  (exists s createdBy now, o = OpStart entity s createdBy now /\ In s (states f)).
Proof.
  destruct (step_shape f o) as [E | (et & E & Hent & Ht & Hshape)].
  - rewrite E. split; [auto | intros [Hs | (s & createdBy & now & -> & Hin)]];
      [assumption|].
    cbn [step] in E. rewrite Start_eq in E.
    apply validateState_None in Hin. rewrite Hin in E. simpl in E.
    exfalso. apply (f_equal logOf) in E. rewrite logOf_appended in E.
    apply (f_equal (@length _)) in E. rewrite length_app in E. simpl in E. lia.
  - rewrite E, GetState_appended.
    destruct (MemoryStorage.sameEntity entity et) eqn:Es.
    + apply sameEntity_true in Es. split; [intros _ | eauto].
      destruct Hshape as [(_ & _ & Hin & createdBy & Ho) | (Hcur & _)].
      * right. exists (To (ET_Transition et)), createdBy, (opTime o).
        split; [congruence | assumption].
      * left. exists (From (ET_Transition et)). congruence.
    + split; [auto | intros [Hs | (s & createdBy & now & -> & Hin)]];
        [assumption|].
      simpl in Hent. apply sameEntity_true in Hent. congruence.
Qed.

(** X8.  Only [Start] brings an entity into being.  After a run from an
    empty store, an entity has a current state exactly when the run holds
    a [Start] call on it with a declared initial state; [Trigger] never
    creates an entity. *)
Theorem entity_exists_iff_started (f0 : FSM MemoryStorage.t) (ops : list Op)
  (entity : Entity) :
  logOf f0 = [] ->
  ((exists s, GetState (run f0 ops) entity = Ok s) <->
   exists s createdBy now,
     In (OpStart entity s createdBy now) ops /\ In s (states f0)).
Proof.
  intros H0. induction ops as [|o ops IH] using rev_ind.
  - unfold run; cbn [fold_left]. rewrite (filter_nil_GetState f0 entity)
      by (rewrite H0; reflexivity).
    split; [intros [s E]; discriminate | intros (s & c & n & [] & _)].
  - rewrite run_snoc, step_exists, IH.
    destruct (run_definition f0 ops) as (-> & _).
    split.
    + intros [(s & c & n & Hin & Hs) | (s & c & n & Ho & Hs)];
        exists s, c, n; (split; [apply in_or_app | assumption]);
        [left; assumption | right; left; assumption].
    + intros (s & c & n & Hin & Hs). apply in_app_or in Hin as [Hin | [Ho | []]].
      * left. eauto.
      * right. eauto.
Qed.

(** An instance: a trigger alone leaves the document unknown, a start
    makes it known. *)
Lemma entity_exists_iff_started_witness :
  exists s,
    GetState
      (run Workflow.newTestFSM
         [OpTrigger Workflow.doc1 (Workflow.ev "submit") "alice" 1%Z;
          OpStart Workflow.doc1 (Workflow.st "draft") "alice" 2%Z])
      Workflow.doc1 = Ok s.
Proof.
  apply (proj2 (entity_exists_iff_started Workflow.newTestFSM
                  [OpTrigger Workflow.doc1 (Workflow.ev "submit") "alice" 1%Z;
                   OpStart Workflow.doc1 (Workflow.st "draft") "alice" 2%Z]
                  Workflow.doc1 eq_refl)).
  exists (Workflow.st "draft"), "alice", 2%Z. simpl. tauto.
Defined.

Lemma snoc_adjacent (A : Type) (l pre post : list A) (x r1 r2 : A) :
  l ++ [x] = pre ++ r1 :: r2 :: post ->
  (post = [] /\ r2 = x /\ l = pre ++ [r1]) \/
  (exists post', post = post' ++ [x] /\ l = pre ++ r1 :: r2 :: post').
Proof.
  destruct post as [|p post' _] using rev_ind; intros E.
  - left. change (pre ++ [r1; r2]) with (pre ++ [r1] ++ [r2]) in E.
    rewrite app_assoc in E. apply app_inj_tail in E as [-> ->]. auto.
  - right. exists post'.
    change (pre ++ r1 :: r2 :: post' ++ [p])
      with (pre ++ (r1 :: r2 :: post') ++ [p]) in E.
    rewrite app_assoc in E. apply app_inj_tail in E as [-> ->]. auto.
Qed.

Lemma latest_In (h : list EntityTransition) (r : EntityTransition) :
  latest h = Some r -> In r h.
Proof.
  destruct h as [|x h _] using rev_ind; [discriminate|].
  rewrite latest_snoc. intros E. injection E as <-.
  apply in_or_app. right. left. reflexivity.
Qed.

(** X9.  Histories are chained.  After a run from an empty store, in the
    history of every entity each record follows on its predecessor: its
    [From] state is the predecessor's [To] state, unless it is a start
    record (empty [From], event [start]) left by a repeated [Start]. *)
Theorem history_chained (f0 : FSM MemoryStorage.t) (ops : list Op)
  (entity : Entity) :
  logOf f0 = [] ->
  exists h,
    FSM_GetTransitions (run f0 ops) entity = Ok h /\
    forall pre r1 r2 post,
      h = pre ++ r1 :: r2 :: post ->
      From (ET_Transition r2) = To (ET_Transition r1) \/
      (From (ET_Transition r2) = {| State_Name := "" |} /\
       Transition_Event (ET_Transition r2) = {| Event_Name := "start" |}).
Proof.
  intros H0. exists (filter (MemoryStorage.sameEntity entity) (logOf (run f0 ops))).
  split; [reflexivity|].
  induction ops as [|o ops IH] using rev_ind.
  - unfold run; cbn [fold_left]. rewrite H0. intros pre r1 r2 post E.
    destruct pre; discriminate.
  - rewrite run_snoc.
    destruct (step_shape (run f0 ops) o) as [-> | (et & -> & Hent & _ & Hshape)];
      [exact IH|].
    rewrite logOf_appended, filter_snoc.
    destruct (MemoryStorage.sameEntity entity et) eqn:Es;
      [| rewrite app_nil_r; exact IH].
    intros pre r1 r2 post E.
    apply snoc_adjacent in E as [(_ & -> & Eh) | (post' & _ & Eh)];
      [| apply (IH pre r1 r2 post' Eh)].
    destruct Hshape as [(Hfrom & Hev & _) | (Hcur & _)]; [right; auto | left].
    apply sameEntity_true in Es. rewrite <- Hent, Es in Hcur.
    rewrite GetState_latest, Eh, latest_snoc in Hcur. congruence.
Qed.

(** An instance: the history of a document that was started, submitted and
    rejected. *)
Lemma history_chained_witness :
  exists h,
    FSM_GetTransitions
      (run Workflow.newTestFSM
         [OpStart Workflow.doc1 (Workflow.st "draft") "alice" 1%Z;
          OpTrigger Workflow.doc1 (Workflow.ev "submit") "alice" 2%Z;
          OpTrigger Workflow.doc1 (Workflow.ev "reject") "bob" 3%Z])
      Workflow.doc1 = Ok h /\
    forall pre r1 r2 post,
      h = pre ++ r1 :: r2 :: post ->
      From (ET_Transition r2) = To (ET_Transition r1) \/
      (From (ET_Transition r2) = {| State_Name := "" |} /\
       Transition_Event (ET_Transition r2) = {| Event_Name := "start" |}).
Proof.
  apply (history_chained Workflow.newTestFSM
           [OpStart Workflow.doc1 (Workflow.st "draft") "alice" 1%Z;
            OpTrigger Workflow.doc1 (Workflow.ev "submit") "alice" 2%Z;
            OpTrigger Workflow.doc1 (Workflow.ev "reject") "bob" 3%Z]
           Workflow.doc1).
  reflexivity.
Defined.

Lemma run_records_legal (f0 : FSM MemoryStorage.t) (ops : list Op) :
  logOf f0 = [] ->
  Forall
    (fun et =>
       (From (ET_Transition et) = {| State_Name := "" |} /\
        Transition_Event (ET_Transition et) = {| Event_Name := "start" |} /\
        In (To (ET_Transition et)) (states f0)) \/
       (In (Transition_Event (ET_Transition et)) (events f0) /\
        exists before t after,
          transitions f0 = before ++ t :: after /\
          Forall (fun u => ~ answers (From (ET_Transition et))
                               (Transition_Event (ET_Transition et)) u) before /\
          From t = From (ET_Transition et) /\
          Transition_Event t = Transition_Event (ET_Transition et) /\
          To t = To (ET_Transition et)))
    (logOf (run f0 ops)).
Proof.
  intros H0. induction ops as [|o ops IH] using rev_ind.
  - unfold run; cbn [fold_left]. rewrite H0. constructor.
  - rewrite run_snoc.
    destruct (step_shape (run f0 ops) o) as [-> | (et & -> & _ & _ & Hshape)];
      [exact IH|].
    rewrite logOf_appended. apply Forall_app. split; [exact IH|].
    constructor; [|constructor].
    destruct (run_definition f0 ops) as (Es & Ee & Et).
    rewrite Es, Ee in Hshape.
    destruct Hshape as [(Hfrom & Hev & Hin & _) | (_ & Hev & Hnext)]; [left; auto|].
    right. split; [assumption|].
    unfold findNextState in Hnext. rewrite Et in Hnext.
    apply findNextState_loop_Ok in Hnext as (b & t & a & Eq & Hb & [Hf He] & Hto).
    exists b, t, a. auto.
Qed.

(** X10.  Only legal moves are recorded.  After a run from an empty store,
    every record of the log is a start record whose [To] state is
    declared, or a move along a declared transition: the earliest declared
    one for its [From] state and its event, which is a declared event. *)
Theorem recorded_moves_declared (f0 : FSM MemoryStorage.t) (ops : list Op) :
  logOf f0 = [] ->
  Forall
    (fun et =>
       (From (ET_Transition et) = {| State_Name := "" |} /\
        Transition_Event (ET_Transition et) = {| Event_Name := "start" |} /\
        In (To (ET_Transition et)) (states f0)) \/
       (In (Transition_Event (ET_Transition et)) (events f0) /\
        exists before t after,
          transitions f0 = before ++ t :: after /\
          Forall (fun u => ~ answers (From (ET_Transition et))
                               (Transition_Event (ET_Transition et)) u) before /\
          From t = From (ET_Transition et) /\
          Transition_Event t = Transition_Event (ET_Transition et) /\
          To t = To (ET_Transition et)))
    (logOf (run f0 ops)).
Proof. apply run_records_legal. Qed.

(** An instance: the log after a start and a submission. *)
Lemma recorded_moves_declared_witness :
  Forall
    (fun et =>
       (From (ET_Transition et) = {| State_Name := "" |} /\
        Transition_Event (ET_Transition et) = {| Event_Name := "start" |} /\
        In (To (ET_Transition et)) (states Workflow.newTestFSM)) \/
       (In (Transition_Event (ET_Transition et)) (events Workflow.newTestFSM) /\
        exists before t after,
          transitions Workflow.newTestFSM = before ++ t :: after /\
          Forall (fun u => ~ answers (From (ET_Transition et))
                               (Transition_Event (ET_Transition et)) u) before /\
          From t = From (ET_Transition et) /\
          Transition_Event t = Transition_Event (ET_Transition et) /\
          To t = To (ET_Transition et)))
    (logOf (run Workflow.newTestFSM
              [OpStart Workflow.doc1 (Workflow.st "draft") "alice" 1%Z;
               OpTrigger Workflow.doc1 (Workflow.ev "submit") "alice" 2%Z])).
Proof.
  apply (recorded_moves_declared Workflow.newTestFSM
           [OpStart Workflow.doc1 (Workflow.st "draft") "alice" 1%Z;
            OpTrigger Workflow.doc1 (Workflow.ev "submit") "alice" 2%Z]).
  reflexivity.
Defined.

(** X11.  The current state is always a declared state.  After a run on an
    engine that [New] built over a new in-memory store, whenever [GetState]
    returns a state it is one of the declared states, and every available
    event is a declared event. *)
Theorem current_state_declared (sts : list State) (evs : list Event)
  (ts : list Transition) (f0 : FSM MemoryStorage.t) (ops : list Op)
  (entity : Entity) :
  New sts evs ts (Some MemoryStorage.NewMemoryStorage) = Ok f0 ->
  (forall s, GetState (run f0 ops) entity = Ok s -> In s sts) /\
  (forall available,
     GetAvailableEvents (run f0 ops) entity = Ok available ->
     Forall (fun e => In e evs) available).
Proof.
  intros HN. pose proof (New_Ok_inv _ _ _ _ _ HN) as F.
  assert (Hdef : states f0 = sts /\ events f0 = evs /\ logOf f0 = []).
  { unfold New in HN.
    destruct (Nat.eqb (length sts) 0); [discriminate|].
    destruct (Nat.eqb (length evs) 0); [discriminate|].
    destruct (Nat.eqb (length ts) 0); [discriminate|].
    destruct (validateTransitions ts sts evs); [discriminate|].
    injection HN as <-. repeat split. }
  destruct Hdef as (Es & Ee & H0). rewrite Es, Ee in F.
  split.
  - intros s Hs. rewrite GetState_latest in Hs.
    destruct (latest _) as [r|] eqn:El; [|discriminate].
    injection Hs as <-. apply latest_In, filter_In in El as [Hin _].
    pose proof (run_records_legal f0 ops H0) as R.
    rewrite Forall_forall in R.
    destruct (R r Hin) as [(_ & _ & Hto) | (_ & b & t & a & Eq & _ & _ & _ & <-)].
    + rewrite <- Es. assumption.
    + rewrite Forall_forall in F. apply (F t). rewrite Eq.
      apply in_or_app. right. left. reflexivity.
  - intros available Ha. unfold GetAvailableEvents in Ha.
    destruct (GetCurrentState entity (storage (run f0 ops))); [|discriminate].
    injection Ha as <-. destruct (run_definition f0 ops) as (_ & _ & ->).
    apply Forall_forall. intros e He. apply in_map_iff in He as (t & <- & Ht).
    apply filter_In in Ht as [Ht _]. rewrite Forall_forall in F.
    apply (F t Ht).
Qed.

(** An instance: the state of a submitted document is a declared state. *)
Lemma current_state_declared_witness :
  GetState
    (run Workflow.newTestFSM
       [OpStart Workflow.doc1 (Workflow.st "draft") "alice" 1%Z;
        OpTrigger Workflow.doc1 (Workflow.ev "submit") "alice" 2%Z])
    Workflow.doc1 = Ok (Workflow.st "submitted") /\
  In (Workflow.st "submitted") Workflow.testStates.
Proof.
  split; [reflexivity|].
  apply (proj1 (current_state_declared
                  Workflow.testStates Workflow.testEvents Workflow.testTransitions
                  Workflow.newTestFSM
                  [OpStart Workflow.doc1 (Workflow.st "draft") "alice" 1%Z;
                   OpTrigger Workflow.doc1 (Workflow.ev "submit") "alice" 2%Z]
                  Workflow.doc1 eq_refl)).
  reflexivity.
Defined.
